(** * sales_analyzer: a shallow embedding of [src/main.py] and of the
    cleaning and aggregation core it drives.

    [src/main.py] ([SalesAnalysisSystem]) is embedded from the source:
    [run], [export_results], [export_to_csv].  The modules it imports,
    [data_loader.DataLoader] and [analyzer.SalesAnalyzer], are not part of
    the sources at hand; the Data Cleaner, Summary Reporter and Aggregation
    Engine they implement are modelled from the spec (their definitions
    say so in their doc comments).

    Numbers: decimals are exact rationals [Q]; a value rounded to two
    decimals is kept as an integer number of hundredths ([Z]).  Dates are
    day numbers counted from 1970-01-01 ([Z]), as pandas stores them. *)

From Stdlib Require Import ZArith QArith Qround Qabs Lia List Bool String Ascii.
From Stdlib Require Import Sorting.Permutation Sorting.Sorted.
Import ListNotations.
Local Open Scope Z_scope.

(* ------------------------------------------------------------------ *)
(** ** Numbers and dates *)

(** Rounding to an integer, ties to even (Python's [round]). *)
Definition round_half_even (y : Q) : Z :=
  let f := Qfloor y in
  match Qcompare (y - inject_Z f)%Q (1 # 2) with
  | Lt => f
  | Gt => (f + 1)%Z
  | Eq => if Z.even f then f else (f + 1)%Z
  end.

(** [round(x, 2)], as a number of hundredths. *)
Definition round2 (x : Q) : Z := round_half_even (x * 100)%Q.

(** A number of hundredths read back as a decimal. *)
Definition cents_to_Q (c : Z) : Q := c # 100.

Definition is_leap (y : Z) : bool :=
  ((y mod 4 =? 0) && negb (y mod 100 =? 0)) || (y mod 400 =? 0).

Definition days_in_month (y m : Z) : Z :=
  if m =? 2 then (if is_leap y then 29 else 28)
  else if (m =? 4) || (m =? 6) || (m =? 9) || (m =? 11) then 30
  else 31.

Definition valid_ymd (y m d : Z) : bool :=
  (1 <=? m) && (m <=? 12) && (1 <=? d) && (d <=? days_in_month y m).

(** Proleptic Gregorian calendar to day number (1970-01-01 is day 0). *)
Definition days_from_civil (y m d : Z) : Z :=
  let y := if m <=? 2 then y - 1 else y in
  let era := y / 400 in
  let yoe := y - era * 400 in
  let mp := if m >? 2 then m - 3 else m + 9 in
  let doy := (153 * mp + 2) / 5 + d - 1 in
  let doe := yoe * 365 + yoe / 4 - yoe / 100 + doy in
  era * 146097 + doe - 719468.

(** Day number back to (year, month, day). *)
Definition civil_from_days (z : Z) : Z * Z * Z :=
  let z := z + 719468 in
  let era := z / 146097 in
  let doe := z - era * 146097 in
  let yoe := (doe - doe / 1460 + doe / 36524 - doe / 146096) / 365 in
  let y := yoe + era * 400 in
  let doy := doe - (365 * yoe + yoe / 4 - yoe / 100) in
  let mp := (5 * doy + 2) / 153 in
  let d := doy - (153 * mp + 2) / 5 + 1 in
  let m := if mp <? 10 then mp + 3 else mp - 9 in
  (if m <=? 2 then y + 1 else y, m, d).

(** A date truncated to its month, as the month count [12 * year + month - 1]. *)
Definition month_of_day (z : Z) : Z :=
  let '(y, m, _) := civil_from_days z in 12 * y + (m - 1).

(* ------------------------------------------------------------------ *)
(** ** Raw input *)

(** A raw cell as the file reader delivers it. *)
Inductive rval : Type :=
| RNull
| RInt (z : Z)
| RNum (q : Q)
| RStr (s : string)
| RDate (day : Z).

Definition digit_val (c : ascii) : option Z :=
  let n := Z.of_nat (nat_of_ascii c) in
  if (48 <=? n) && (n <=? 57) then Some (n - 48) else None.

Fixpoint digits_acc (l : list ascii) (acc : Z) : option Z :=
  match l with
  | [] => Some acc
  | c :: l' =>
      match digit_val c with
      | Some d => digits_acc l' (acc * 10 + d)
      | None => None
      end
  end.

Definition parse_digits (l : list ascii) : option Z :=
  match l with [] => None | _ => digits_acc l 0 end.

Definition is_char (c : ascii) (n : nat) : bool := Nat.eqb (nat_of_ascii c) n.

(** Optional leading minus sign. *)
Definition split_sign (l : list ascii) : bool * list ascii :=
  match l with
  | c :: t => if is_char c 45 then (true, t) else (false, l)
  | [] => (false, [])
  end.

Definition parse_int (s : string) : option Z :=
  let '(neg, ds) := split_sign (list_ascii_of_string s) in
  option_map (fun z => if neg then (- z)%Z else z) (parse_digits ds).

Fixpoint split_dot (l : list ascii) : list ascii * option (list ascii) :=
  match l with
  | [] => ([], None)
  | c :: t =>
      if is_char c 46 then ([], Some t)
      else let '(a, b) := split_dot t in (c :: a, b)
  end.

Definition parse_decimal (s : string) : option Q :=
  let '(neg, l) := split_sign (list_ascii_of_string s) in
  let sgn q := if neg then Qopp q else q in
  match split_dot l with
  | (ip, None) => option_map (fun z => sgn (inject_Z z)) (parse_digits ip)
  | (ip, Some fp) =>
      match parse_digits ip, parse_digits fp with
      | Some i, Some f =>
          Some (sgn (inject_Z i + Qmake f (Z.to_pos (10 ^ Z.of_nat (List.length fp))))%Q)
      | _, _ => None
      end
  end.

(** ["YYYY-MM-DD"] to a day number. *)
Definition parse_date (s : string) : option Z :=
  match list_ascii_of_string s with
  | [y1; y2; y3; y4; c1; m1; m2; c2; d1; d2] =>
      if is_char c1 45 && is_char c2 45 then
        match parse_digits [y1; y2; y3; y4], parse_digits [m1; m2],
              parse_digits [d1; d2] with
        | Some y, Some m, Some d =>
            if valid_ymd y m d then Some (days_from_civil y m d) else None
        | _, _, _ => None
        end
      else None
  | _ => None
  end.

(** A raw record: one raw cell per column of the expected schema, [RNull]
    where the file has no value. *)
Record raw_record : Type := {
  r_product_id : rval;
  r_sale_date : rval;
  r_sales_rep : rval;
  r_region : rval;
  r_category : rval;
  r_quantity : rval;
  r_unit_cost : rval;
  r_unit_price : rval;
  r_discount_pct : rval;
  r_sales_amount : rval
}.

(* ------------------------------------------------------------------ *)
(** ** Schema Validator (modelled from the spec, section 4.1) *)

(** Outcome of checking one field. *)
Inductive fres (A : Type) : Type :=
| FAccept (a : A)
| FCoerce (a : A)
| FReject (reason : string).
Arguments FAccept {A} a.
Arguments FCoerce {A} a.
Arguments FReject {A} reason.

Definition fval {A} (f : fres A) : option A :=
  match f with FAccept a | FCoerce a => Some a | FReject _ => None end.

Definition fcoerced {A} (f : fres A) : bool :=
  match f with FCoerce _ => true | _ => false end.

Definition freasons {A} (f : fres A) : list string :=
  match f with FReject r => [r] | _ => [] end.

Definition fmap_res {A B} (g : A -> B) (f : fres A) : fres B :=
  match f with
  | FAccept a => FAccept (g a)
  | FCoerce a => FCoerce (g a)
  | FReject r => FReject r
  end.

(** Range check on a typed value. *)
Definition fcheck {A} (p : A -> bool) (reason : string) (f : fres A) : fres A :=
  match f with
  | FAccept a | FCoerce a => if p a then f else FReject reason
  | FReject r => FReject r
  end.

Definition missing (name : string) : string := ("missing_" ++ name)%string.
Definition bad_type (name : string) : string := ("invalid_type_" ++ name)%string.

Definition v_string (name : string) (v : rval) : fres string :=
  match v with
  | RStr s => if String.eqb s "" then FReject (missing name) else FAccept s
  | RNull => FReject (missing name)
  | _ => FReject (bad_type name)
  end.

Definition v_int (name : string) (v : rval) : fres Z :=
  match v with
  | RInt z => FAccept z
  | RNum q => if Z.eqb (Zpos (Qden (Qred q))) 1 then FCoerce (Qnum (Qred q))
              else FReject (bad_type name)
  | RStr s => match parse_int s with
              | Some z => FCoerce z
              | None => FReject (bad_type name)
              end
  | RNull => FReject (missing name)
  | RDate _ => FReject (bad_type name)
  end.

Definition v_dec (name : string) (v : rval) : fres Q :=
  match v with
  | RNum q => FAccept q
  | RInt z => FCoerce (inject_Z z)
  | RStr s => match parse_decimal s with
              | Some q => FCoerce q
              | None => FReject (bad_type name)
              end
  | RNull => FReject (missing name)
  | RDate _ => FReject (bad_type name)
  end.

(** Plausible range of sale dates: 1900-01-01 to 2100-12-31. *)
Definition date_min : Z := days_from_civil 1900 1 1.
Definition date_max : Z := days_from_civil 2100 12 31.

Definition v_date (v : rval) : fres Z :=
  let f := match v with
           | RDate z => FAccept z
           | RStr s => match parse_date s with
                       | Some z => FCoerce z
                       | None => FReject (bad_type "sale_date")
                       end
           | RNull => FReject (missing "sale_date")
           | _ => FReject (bad_type "sale_date")
           end in
  fcheck (fun z => (date_min <=? z) && (z <=? date_max)) "date_out_of_range" f.

Definition v_quantity (v : rval) : fres Z :=
  fcheck (fun q => 0 <? q) "invalid_quantity" (v_int "quantity" v).

Definition v_unit_price (v : rval) : fres Q :=
  fcheck (fun p => Qle_bool 0 p) "negative_unit_price" (v_dec "unit_price" v).

Definition v_discount (v : rval) : fres Q :=
  fcheck (fun d => Qle_bool 0 d && negb (Qle_bool 100 d)) "invalid_discount"
    (v_dec "discount_pct" v).

(** [unit_cost] may be absent; when present it must be non-negative. *)
Definition v_unit_cost (v : rval) : fres (option Q) :=
  match v with
  | RNull => FAccept None
  | _ => fmap_res Some
           (fcheck (fun c => Qle_bool 0 c) "negative_unit_cost" (v_dec "unit_cost" v))
  end.

(** A raw [sales_amount] is only read, to detect a conflict with the
    recomputed value; it never rejects a row. *)
Definition raw_amount (v : rval) : option Q :=
  match v with
  | RNum q => Some q
  | RInt z => Some (inject_Z z)
  | RStr s => parse_decimal s
  | _ => None
  end.

(** A validated row, before its derived fields; [k_idx] is its position
    in the raw file. *)
Record kept_row : Type := {
  k_idx : nat;
  k_product_id : string;
  k_sale_date : Z;
  k_sales_rep : string;
  k_region : string;
  k_category : string;
  k_quantity : Z;
  k_unit_cost : option Q;
  k_unit_price : Q;
  k_discount_pct : Q;
  k_raw_sales_amount : option Q
}.

Inductive verdict : Type :=
| Accept (k : kept_row)
| Coerce (k : kept_row)
| Reject (reasons : list string).

(** Every field is checked; the row is rejected when any field fails. *)
Definition validate (i : nat) (r : raw_record) : verdict :=
  let pid := v_string "product_id" (r_product_id r) in
  let dt := v_date (r_sale_date r) in
  let rep := v_string "sales_rep" (r_sales_rep r) in
  let reg := v_string "region" (r_region r) in
  let cat := v_string "category" (r_category r) in
  let qty := v_quantity (r_quantity r) in
  let cost := v_unit_cost (r_unit_cost r) in
  let price := v_unit_price (r_unit_price r) in
  let disc := v_discount (r_discount_pct r) in
  let reasons := freasons pid ++ freasons dt ++ freasons rep ++ freasons reg
                 ++ freasons cat ++ freasons qty ++ freasons cost
                 ++ freasons price ++ freasons disc in
  let coerced := fcoerced pid || fcoerced dt || fcoerced rep || fcoerced reg
                 || fcoerced cat || fcoerced qty || fcoerced cost
                 || fcoerced price || fcoerced disc in
  match fval pid, fval dt, fval rep, fval reg, fval cat, fval qty, fval cost,
        fval price, fval disc with
  | Some p, Some d, Some s, Some g, Some c, Some q, Some uc, Some up, Some dc =>
      let k := {| k_idx := i; k_product_id := p; k_sale_date := d;
                  k_sales_rep := s; k_region := g; k_category := c;
                  k_quantity := q; k_unit_cost := uc; k_unit_price := up;
                  k_discount_pct := dc;
                  k_raw_sales_amount := raw_amount (r_sales_amount r) |} in
      if coerced then Coerce k else Accept k
  | _, _, _, _, _, _, _, _, _ => Reject reasons
  end.

Fixpoint validate_from (i : nat) (rs : list raw_record) : list verdict :=
  match rs with
  | [] => []
  | r :: rs' => validate i r :: validate_from (S i) rs'
  end.

Definition kept_of (v : verdict) : list kept_row :=
  match v with Accept k | Coerce k => [k] | Reject _ => [] end.

(* ------------------------------------------------------------------ *)
(** ** Data Cleaner (modelled from the spec, section 4.2) *)

Definition triple : Type := (string * Z * string)%type.

Definition triple_of (k : kept_row) : triple :=
  (k_product_id k, k_sale_date k, k_sales_rep k).

Definition triple_eqb (a b : triple) : bool :=
  let '(p1, d1, s1) := a in
  let '(p2, d2, s2) := b in
  String.eqb p1 p2 && Z.eqb d1 d2 && String.eqb s1 s2.

(** Step 2: keep the first row of each (product_id, sale_date, sales_rep). *)
Fixpoint dedup_go (seen : list triple) (l : list kept_row) : list kept_row :=
  match l with
  | [] => []
  | k :: l' =>
      if existsb (triple_eqb (triple_of k)) seen then dedup_go seen l'
      else k :: dedup_go (triple_of k :: seen) l'
  end.

Definition dedup (l : list kept_row) : list kept_row := dedup_go [] l.

(** A post-cleaning row; [sales_amount] is in hundredths. *)
Record sales_record : Type := {
  s_idx : nat;
  product_id : string;
  sale_date : Z;
  sales_rep : string;
  region : string;
  category : string;
  quantity : Z;
  unit_cost : option Q;
  unit_price : Q;
  discount_pct : Q;
  sales_amount : Z;
  profit : option Q;
  region_rep : string
}.

(** [unit_price * quantity * (1 - discount_pct/100)], rounded to 2 decimals. *)
Definition recompute_sales_amount (price : Q) (qty : Z) (disc : Q) : Z :=
  round2 (price * inject_Z qty * (1 - disc / 100))%Q.

(** Step 3: derived fields.  The raw [sales_amount] is not used. *)
Definition derive (k : kept_row) : sales_record :=
  let sa := recompute_sales_amount (k_unit_price k) (k_quantity k) (k_discount_pct k) in
  {| s_idx := k_idx k; product_id := k_product_id k; sale_date := k_sale_date k;
     sales_rep := k_sales_rep k; region := k_region k; category := k_category k;
     quantity := k_quantity k; unit_cost := k_unit_cost k;
     unit_price := k_unit_price k; discount_pct := k_discount_pct k;
     sales_amount := sa;
     profit := option_map (fun c => cents_to_Q sa - c * inject_Z (k_quantity k))%Q
                 (k_unit_cost k);
     region_rep := (k_region k ++ "_" ++ k_sales_rep k)%string |}.

(** A raw [sales_amount] further than 0.01 from the recomputed one. *)
Definition derived_conflict (k : kept_row) : bool :=
  match k_raw_sales_amount k with
  | Some q =>
      let sa := recompute_sales_amount (k_unit_price k) (k_quantity k) (k_discount_pct k) in
      negb (Qle_bool (Qabs (q - cents_to_Q sa)) (1 # 100))
  | None => false
  end.

(** Stable insertion sort: [x] goes before the first [y] with [le x y]. *)
Fixpoint insert_by {A} (le : A -> A -> bool) (x : A) (l : list A) : list A :=
  match l with
  | [] => [x]
  | y :: l' => if le x y then x :: l else y :: insert_by le x l'
  end.

Fixpoint sort_by {A} (le : A -> A -> bool) (l : list A) : list A :=
  match l with
  | [] => []
  | x :: l' => insert_by le x (sort_by le l')
  end.

Definition date_leb (a b : sales_record) : bool := sale_date a <=? sale_date b.

Record cleaning_report : Type := {
  accepted : nat;
  coerced : nat;
  rejected : nat;
  rejected_by_reason : list (string * nat);
  duplicates_dropped : nat;
  derived_conflicts : nat
}.

Fixpoint bump (r : string) (m : list (string * nat)) : list (string * nat) :=
  match m with
  | [] => [(r, 1%nat)]
  | (r', n) :: m' => if String.eqb r r' then (r', S n) :: m' else (r', n) :: bump r m'
  end.

Definition count_reasons (vs : list verdict) : list (string * nat) :=
  fold_left (fun m v => match v with
                        | Reject rs => fold_left (fun m r => bump r m) rs m
                        | _ => m
                        end) vs [].

Definition is_accept (v : verdict) : bool := match v with Accept _ => true | _ => false end.
Definition is_coerce (v : verdict) : bool := match v with Coerce _ => true | _ => false end.
Definition is_reject (v : verdict) : bool := match v with Reject _ => true | _ => false end.

Definition kept_rows (raws : list raw_record) : list kept_row :=
  flat_map kept_of (validate_from 0 raws).

(** Steps 1-4 of the Data Cleaner: validate, deduplicate, derive, sort.
    Step 5 (an empty result) is left to the caller, as [run] does. *)
Definition clean (raws : list raw_record) : cleaning_report * list sales_record :=
  let vs := validate_from 0 raws in
  let kept := flat_map kept_of vs in
  let ded := dedup kept in
  let rep := {| accepted := List.length (filter is_accept vs);
                coerced := List.length (filter is_coerce vs);
                rejected := List.length (filter is_reject vs);
                rejected_by_reason := count_reasons vs;
                duplicates_dropped := (List.length kept - List.length ded)%nat;
                derived_conflicts := List.length (filter derived_conflict ded) |} in
  (rep, sort_by date_leb (map derive ded)).

Definition cleaned (raws : list raw_record) : list sales_record := snd (clean raws).

(* ------------------------------------------------------------------ *)
(** ** Aggregation Engine (modelled from the spec, section 4.4) *)

(** Groups in order of first appearance; rows keep their order. *)
Fixpoint add_to_groups {K} (keq : K -> K -> bool) (k : K) (r : sales_record)
    (gs : list (K * list sales_record)) : list (K * list sales_record) :=
  match gs with
  | [] => [(k, [r])]
  | (k', rs) :: gs' =>
      if keq k k' then (k', rs ++ [r]) :: gs'
      else (k', rs) :: add_to_groups keq k r gs'
  end.

Definition group_by {K} (keq : K -> K -> bool) (key : sales_record -> K)
    (rows : list sales_record) : list (K * list sales_record) :=
  fold_left (fun gs r => add_to_groups keq (key r) r gs) rows [].

Record group_row (K : Type) : Type := {
  g_key : K;
  transaction_count : Z;
  total_quantity : Z;
  total_revenue : Z;          (* hundredths *)
  total_profit : Q;
  avg_order_value : Q
}.
Arguments g_key {K} g.
Arguments transaction_count {K} g.
Arguments total_quantity {K} g.
Arguments total_revenue {K} g.
Arguments total_profit {K} g.
Arguments avg_order_value {K} g.

Definition revenue (rows : list sales_record) : Z :=
  fold_right (fun r acc => sales_amount r + acc) 0 rows.

Definition profit_or_zero (r : sales_record) : Q :=
  match profit r with Some p => p | None => 0%Q end.

Definition aggregate {K} (g : K * list sales_record) : group_row K :=
  let '(k, rs) := g in
  let n := Z.of_nat (List.length rs) in
  {| g_key := k;
     transaction_count := n;
     total_quantity := fold_right (fun r acc => quantity r + acc) 0 rs;
     total_revenue := revenue rs;
     total_profit := fold_right (fun r acc => profit_or_zero r + acc)%Q 0%Q rs;
     avg_order_value := (cents_to_Q (revenue rs) / inject_Z n)%Q |}.

(** Descending [total_revenue], ties by ascending key. *)
Definition rev_leb (a b : group_row string) : bool :=
  (total_revenue b <? total_revenue a)
  || ((total_revenue a =? total_revenue b) && String.leb (g_key a) (g_key b)).

(** Ascending month. *)
Definition month_leb (a b : group_row Z) : bool := g_key a <=? g_key b.

Definition revenue_table (key : sales_record -> string) (rows : list sales_record)
    : list (group_row string) :=
  sort_by rev_leb (map aggregate (group_by String.eqb key rows)).

Definition by_category (rows : list sales_record) := revenue_table category rows.
Definition by_region (rows : list sales_record) := revenue_table region rows.
Definition by_sales_rep (rows : list sales_record) := revenue_table sales_rep rows.
Definition by_time (rows : list sales_record) : list (group_row Z) :=
  sort_by month_leb
    (map aggregate (group_by Z.eqb (fun r => month_of_day (sale_date r)) rows)).

(* ------------------------------------------------------------------ *)
(** ** pandas frames, Python exceptions and the effects of [main.py] *)

Inductive cell : Type := CNum (q : Q) | CStr (s : string) | CNA.

(** A DataFrame: column names, index labels, rows aligned with the columns. *)
Record frame : Type := {
  f_columns : list string;
  f_index : list string;
  f_rows : list (list cell)
}.

(** [df.empty]: an axis of length 0. *)
Definition f_empty (fr : frame) : bool :=
  Nat.eqb (List.length (f_index fr)) 0 || Nat.eqb (List.length (f_columns fr)) 0.

Definition has_column (fr : frame) (c : string) : bool :=
  existsb (String.eqb c) (f_columns fr).

Fixpoint position (c : string) (cols : list string) : option nat :=
  match cols with
  | [] => None
  | c' :: cs => if String.eqb c c' then Some 0%nat else option_map S (position c cs)
  end.

(** Exceptions raised along these paths; all derive from [Exception]. *)
Inductive exn : Type :=
| ImportError
| IndexError
| KeyError
| TypeError
| ValueError
| OSError
| OtherError (name : string).

Definition exn_msg (e : exn) : string :=
  match e with
  | ImportError => "ImportError" | IndexError => "IndexError"
  | KeyError => "KeyError" | TypeError => "TypeError"
  | ValueError => "ValueError" | OSError => "OSError"
  | OtherError n => n
  end.

Inductive result (A : Type) : Type := Ok (a : A) | Err (e : exn).
Arguments Ok {A} a.
Arguments Err {A} e.

(** [df[c].sum()]: [KeyError] for a missing column, missing cells skipped,
    [TypeError] for text mixed into the column. *)
Definition col_sum (fr : frame) (c : string) : result Q :=
  match position c (f_columns fr) with
  | None => Err KeyError
  | Some i =>
      fold_right (fun row acc =>
        match acc, nth i row CNA with
        | Err e, _ => Err e
        | Ok s, CNum q => Ok (q + s)%Q
        | Ok s, CNA => Ok s
        | Ok _, CStr _ => Err TypeError
        end) (Ok 0%Q) (f_rows fr)
  end.

(** [df.index[0]] *)
Definition index0 (fr : frame) : result string :=
  match f_index fr with [] => Err IndexError | i :: _ => Ok i end.

(** [df.iloc[0][c]] *)
Definition iloc0_col (fr : frame) (c : string) : result cell :=
  match f_rows fr with
  | [] => Err IndexError
  | row :: _ => match position c (f_columns fr) with
                | None => Err KeyError
                | Some i => Ok (nth i row CNA)
                end
  end.

(** A Python dict with string keys, in insertion order. *)
Definition dict (A : Type) := list (string * A).

Fixpoint dict_get {A} (k : string) (d : dict A) : option A :=
  match d with
  | [] => None
  | (k', v) :: d' => if String.eqb k k' then Some v else dict_get k d'
  end.

(** Decimal digits of a non-negative integer. *)
Fixpoint dec_digits (fuel : nat) (n : Z) (acc : list ascii) : list ascii :=
  match fuel with
  | O => acc
  | S f =>
      let acc' := ascii_of_nat (48 + Z.to_nat (n mod 10)) :: acc in
      if n <? 10 then acc' else dec_digits f (n / 10) acc'
  end.

Definition z_digits (n : Z) : list ascii := dec_digits (Z.to_nat (Z.log2 n + 2)) n [].

Definition str_of_nat (n : nat) : string := string_of_list_ascii (z_digits (Z.of_nat n)).

(** Thousands separators, from the reversed digits. *)
Fixpoint group3 (rev_digits : list ascii) (i : nat) : list ascii :=
  match rev_digits with
  | [] => []
  | c :: t =>
      group3 t (S i)
      ++ (if negb (Nat.eqb i 0) && Nat.eqb (Nat.modulo i 3) 0 then [c; ","%char] else [c])
  end.

(** [f"${x:,.2f}"] *)
Definition fmt_money (q : Q) : string :=
  let c := Z.abs (round2 q) in
  let int_part := group3 (rev (z_digits (c / 100))) 0 in
  let frac := c mod 100 in
  string_of_list_ascii
    (["$"%char] ++ (if negb (Qle_bool 0 q) then ["-"%char] else [])
     ++ int_part ++ ["."%char]
     ++ [ascii_of_nat (48 + Z.to_nat (frac / 10)); ascii_of_nat (48 + Z.to_nat (frac mod 10))]).

(** Formatting a cell with [:,.2f]. *)
Definition fmt_cell (c : cell) : result string :=
  match c with
  | CNum q => Ok (fmt_money q)
  | CNA => Ok "$nan"%string
  | CStr _ => Err ValueError
  end.

(** [sheet_name[:31]]: the first 31 characters of a UTF-8 string. *)
Fixpoint utf8_take (n : nat) (l : list ascii) : list ascii :=
  match l with
  | [] => []
  | c :: t =>
      let cont := (128 <=? nat_of_ascii c)%nat && (nat_of_ascii c <? 192)%nat in
      if cont then c :: utf8_take n t
      else match n with O => [] | S n' => c :: utf8_take n' t end
  end.

Definition sheet_short (s : string) : string :=
  string_of_list_ascii (utf8_take 31 (list_ascii_of_string s)).

(** Observable effects: console output, files written, calls into the
    components [main.py] imports. *)
Inductive event : Type :=
| EvPrint (msg : string)
| EvXlsx (file : string) (sheets : dict frame)
| EvCsv (file : string) (fr : frame)
| EvTxt (file : string) (lines : list string)
| EvCall (what : string).

(** Program state: the effects so far and the sheets of the open
    [ExcelWriter]. *)
Record st : Type := { events : list event; book : dict frame }.

(** State and exception monad. *)
Definition M (A : Type) : Type := st -> result A * st.

Definition ret {A} (a : A) : M A := fun s => (Ok a, s).
Definition bind {A B} (m : M A) (k : A -> M B) : M B :=
  fun s => match m s with
           | (Ok a, s') => k a s'
           | (Err e, s') => (Err e, s')
           end.
Definition raise {A} (e : exn) : M A := fun s => (Err e, s).
Definition lift {A} (r : result A) : M A := fun s => (r, s).

Notation "x <- m ;; k" := (bind m (fun x => k))
  (at level 61, m at next level, right associativity).
Notation "m ;;; k" := (bind m (fun _ => k)) (at level 61, right associativity).

(** [try: m except: h] *)
Definition try_catch {A} (m : M A) (h : exn -> M A) : M A :=
  fun s => match m s with
           | (Ok a, s') => (Ok a, s')
           | (Err e, s') => h e s'
           end.

(** Run [m] and return its outcome as a value. *)
Definition capture {A} (m : M A) : M (result A) :=
  fun s => let '(r, s') := m s in (Ok r, s').

Definition emit (ev : event) : M unit :=
  fun s => (Ok tt, {| events := events s ++ [ev]; book := book s |}).
Definition print (msg : string) : M unit := emit (EvPrint msg).
Definition get_book : M (dict frame) := fun s => (Ok (book s), s).
Definition set_book (b : dict frame) : M unit :=
  fun s => (Ok tt, {| events := events s; book := b |}).

Fixpoint mapM_ {A} (f : A -> M unit) (l : list A) : M unit :=
  match l with [] => ret tt | x :: l' => f x ;;; mapM_ f l' end.

(** How the file writers of the environment behave: whether [openpyxl]
    imports, and which writes fail. *)
Record env : Type := {
  openpyxl_available : bool;
  sheet_fail : string -> option exn;   (* [df.to_excel(writer, sheet_name)] *)
  save_fail : option exn;              (* saving the workbook *)
  file_fail : string -> option exn     (* [to_csv] / [open] of a file *)
}.

Definition str_repeat (n : nat) (c : ascii) : string := string_of_list_ascii (repeat c n).

Definition key_categories : string := "Анализ_по_категориям".
Definition key_regions : string := "Анализ_по_регионам".
Definition key_reps : string := "Анализ_продавцов".
Definition col_revenue : string := "Общая_выручка".

Section Exporting.
Variable E : env.
(** [self.data] *)
Variable data : option frame.
(** [timestamp] and the current time as text. *)
Variable ts now : string.

(** [data.to_excel(writer, sheet_name=name)] *)
Definition write_sheet (name : string) (fr : frame) : M unit :=
  match sheet_fail E name with
  | Some e => raise e
  | None => b <- get_book ;; set_book (b ++ [(name, fr)])
  end.

(** One "best ..." line of the summary sheet (lines 155-168). *)
Definition top_entry (analyses : dict frame) (key label : string) : M (list (list cell)) :=
  match dict_get key analyses with
  | None => ret []
  | Some df =>
      top <- lift (index0 df) ;;
      sales <- lift (iloc0_col df col_revenue) ;;
      s <- lift (fmt_cell sales) ;;
      ret [[CStr label; CStr top; CStr s]]
  end.

(** [total_profit = self.data['Profit'].sum() if 'Profit' in self.data.columns else 0] *)
Definition total_profit_of (d : frame) : result Q :=
  if has_column d "Profit" then col_sum d "Profit" else Ok 0%Q.

(** Lines 170-175. *)
Definition totals_rows : M (list (list cell)) :=
  match data with
  | None => ret []
  | Some d =>
      total_sales <- lift (col_sum d "Sales_Amount") ;;
      total_profit <- lift (total_profit_of d) ;;
      ret [[CStr "Общая выручка"; CStr ""; CStr (fmt_money total_sales)];
           [CStr "Общая прибыль"; CStr ""; CStr (fmt_money total_profit)];
           [CStr "Всего транзакций"; CNum (inject_Z (Z.of_nat (List.length (f_index d))));
            CStr ""]]
  end.

Definition summary_frame (rows : list (list cell)) : frame :=
  {| f_columns := ["Показатель"%string; "Значение"%string; "Сумма"%string];
     f_index := map str_of_nat (seq 0 (List.length rows));
     f_rows := rows |}.

(** The body of [with pd.ExcelWriter(...) as writer:] (lines 142-178). *)
Definition excel_body (analyses : dict frame) : M unit :=
  (match data with
   | Some d => write_sheet "Очищенные_данные" d
   | None => ret tt
   end) ;;;
  mapM_ (fun '(name, df) => if f_empty df then ret tt else write_sheet (sheet_short name) df)
    analyses ;;;
  r1 <- top_entry analyses key_categories "Лучшая категория" ;;
  r2 <- top_entry analyses key_regions "Лучший регион" ;;
  r3 <- top_entry analyses key_reps "Лучший продавец" ;;
  r4 <- totals_rows ;;
  write_sheet "Сводка" (summary_frame (r1 ++ r2 ++ r3 ++ r4)).

Definition excel_file : string := ("sales_analysis_" ++ ts ++ ".xlsx")%string.

(** Lines 140-180.  Creating the writer imports [openpyxl]; leaving the
    [with] block closes the writer, which saves the workbook, also when the
    body raised. *)
Definition excel_attempt (analyses : dict frame) : M unit :=
  if negb (openpyxl_available E) then raise ImportError
  else
    set_book [] ;;;
    r <- capture (excel_body analyses) ;;
    (match save_fail E with
     | Some e => raise e
     | None => b <- get_book ;; emit (EvXlsx excel_file b)
     end) ;;;
    match r with
    | Ok _ => print ("Excel отчет сохранен: " ++ excel_file)%string
    | Err e => raise e
    end.

(** [df.to_csv(file)] *)
Definition write_csv (file : string) (fr : frame) : M unit :=
  match file_fail E file with
  | Some e => raise e
  | None => emit (EvCsv file fr)
  end.

(** Lines 215-222, as the list of lines written. *)
Definition summary_lines : result (list string) :=
  match data with
  | None => Ok []
  | Some d =>
      match col_sum d "Sales_Amount" with
      | Err e => Err e
      | Ok total_sales =>
          match total_profit_of d with
          | Err e => Err e
          | Ok total_profit =>
              Ok [("Общая выручка: " ++ fmt_money total_sales)%string;
                  ("Общая прибыль: " ++ fmt_money total_profit)%string;
                  ("Всего транзакций: " ++ str_of_nat (List.length (f_index d)))%string;
                  ("Дата анализа: " ++ now)%string; ""%string]
          end
      end
  end.

Definition summary_header : list string :=
  [str_repeat 50 "="%char; "СВОДНЫЙ ОТЧЕТ ПО АНАЛИЗУ ПРОДАЖ"%string;
   str_repeat 50 "="%char; ""%string].

(** One iteration of the loop of lines 202-206. *)
Definition csv_step (item : string * frame) : M unit :=
  let '(name, df) := item in
  if f_empty df then ret tt
  else let f := (name ++ "_" ++ ts ++ ".csv")%string in
       write_csv f df ;;; print (name ++ ": " ++ f)%string.

(** [export_to_csv] (lines 193-224).  The text file is closed by its
    [with] block, keeping what was written before an exception. *)
Definition export_to_csv (analyses : dict frame) : M unit :=
  (match data with
   | Some d =>
       let f := ("cleaned_data_" ++ ts ++ ".csv")%string in
       write_csv f d ;;; print ("Очищенные данные: " ++ f)%string
   | None => ret tt
   end) ;;;
  mapM_ csv_step analyses ;;;
  let sf := ("summary_" ++ ts ++ ".txt")%string in
  match file_fail E sf with
  | Some e => raise e
  | None =>
      match summary_lines with
      | Ok ls => emit (EvTxt sf (summary_header ++ ls)) ;;;
                 print ("Сводный отчет: " ++ sf)%string
      | Err e => emit (EvTxt sf summary_header) ;;; raise e
      end
  end.

(** [export_results] (lines 132-191). *)
Definition export_results (analyses : dict frame) : M unit :=
  try_catch
    (try_catch (excel_attempt analyses)
       (fun e => match e with
                 | ImportError =>
                     print "Модуль openpyxl не установлен. Сохраняю в CSV..." ;;;
                     export_to_csv analyses
                 | _ => raise e
                 end))
    (fun e => print ("Не удалось создать Excel файл: " ++ exn_msg e)%string ;;;
              print "Сохраняю в CSV..." ;;;
              export_to_csv analyses).

End Exporting.

(** The console lines of [run] (leading newlines dropped). *)
Definition banner : string := str_repeat 50 "="%char.
Definition rule : string := str_repeat 30 "-"%char.

(** [SalesAnalysisSystem.run] (lines 22-101).  The loader, analyzer and
    visualizer are not in the sources: their results are inputs here and
    each call to them is recorded as an [EvCall].  [prompt] is what
    [get_file_path] returns, [loaded] what [load_csv] returns, [cleaned]
    the outcome of [clean_data] (an exception or a value), [report] what
    [get_comprehensive_report] returns. *)
Definition run (E : env) (ts now : string) (file_path prompt : option string)
    (loaded : option frame) (cleaned : result (option frame)) (report : dict frame)
    : M unit :=
  print banner ;;; print "СИСТЕМА АНАЛИЗА ПРОДАЖ" ;;; print banner ;;;
  let fp := match file_path with
            | None | Some EmptyString => prompt
            | Some p => Some p
            end in
  match fp with
  | None | Some EmptyString => print "Файл не выбран. Завершение работы."
  | Some _ =>
      print "1. ЗАГРУЗКА ДАННЫХ" ;;; print rule ;;;
      emit (EvCall "load_csv") ;;;
      match loaded with
      | None => print "Не удалось загрузить данные"
      | Some _ =>
          print "2. ОЧИСТКА ДАННЫХ" ;;; print rule ;;;
          emit (EvCall "clean_data") ;;;
          d <- lift cleaned ;;
          match d with
          | None => print "Нет данных после очистки"
          | Some d =>
              if f_empty d then print "Нет данных после очистки"
              else
                emit (EvCall "get_summary") ;;;
                print "3. АНАЛИЗ ДАННЫХ" ;;; print rule ;;;
                emit (EvCall "analyze_by_category") ;;;
                emit (EvCall "analyze_by_region") ;;;
                emit (EvCall "analyze_sales_reps") ;;;
                emit (EvCall "analyze_sales_over_time") ;;;
                print "4. ВИЗУАЛИЗАЦИЯ" ;;; print rule ;;;
                emit (EvCall "get_comprehensive_report") ;;;
                emit (EvCall "create_dashboard") ;;;
                print "5. ЭКСПОРТ РЕЗУЛЬТАТОВ" ;;; print rule ;;;
                export_results E (Some d) ts now report ;;;
                print banner ;;; print "АНАЛИЗ ЗАВЕРШЕН УСПЕШНО!" ;;; print banner
          end
      end
  end.

(** [run] with its export step [self.export_results()] (line 95) taken as
    a parameter [exp], applied to the cleaned dataset. *)
Definition run_body (exp : frame -> M unit) (ts now : string) (file_path prompt : option string)
    (loaded : option frame) (cleaned : result (option frame)) : M unit :=
  print banner ;;; print "СИСТЕМА АНАЛИЗА ПРОДАЖ" ;;; print banner ;;;
  let fp := match file_path with
            | None | Some EmptyString => prompt
            | Some p => Some p
            end in
  match fp with
  | None | Some EmptyString => print "Файл не выбран. Завершение работы."
  | Some _ =>
      print "1. ЗАГРУЗКА ДАННЫХ" ;;; print rule ;;;
      emit (EvCall "load_csv") ;;;
      match loaded with
      | None => print "Не удалось загрузить данные"
      | Some _ =>
          print "2. ОЧИСТКА ДАННЫХ" ;;; print rule ;;;
          emit (EvCall "clean_data") ;;;
          d <- lift cleaned ;;
          match d with
          | None => print "Нет данных после очистки"
          | Some d =>
              if f_empty d then print "Нет данных после очистки"
              else
                emit (EvCall "get_summary") ;;;
                print "3. АНАЛИЗ ДАННЫХ" ;;; print rule ;;;
                emit (EvCall "analyze_by_category") ;;;
                emit (EvCall "analyze_by_region") ;;;
                emit (EvCall "analyze_sales_reps") ;;;
                emit (EvCall "analyze_sales_over_time") ;;;
                print "4. ВИЗУАЛИЗАЦИЯ" ;;; print rule ;;;
                emit (EvCall "get_comprehensive_report") ;;;
                emit (EvCall "create_dashboard") ;;;
                print "5. ЭКСПОРТ РЕЗУЛЬТАТОВ" ;;; print rule ;;;
                exp d ;;;
                print banner ;;; print "АНАЛИЗ ЗАВЕРШЕН УСПЕШНО!" ;;; print banner
          end
      end
  end.

(* ------------------------------------------------------------------ *)
(** ** Summary Reporter *)

Record data_summary : Type := {
  row_count : nat;
  summary_revenue : Q;
  summary_profit : Q
}.

(** Modelled from the spec: [DataLoader.get_summary] (section 4.3): row
    count, total revenue and total profit, 0 when the profit column is
    absent. *)
Definition get_summary (d : frame) : result data_summary :=
  match col_sum d "Sales_Amount" with
  | Err e => Err e
  | Ok rev =>
      match (if has_column d "Profit" then col_sum d "Profit" else Ok 0%Q) with
      | Err e => Err e
      | Ok prof => Ok {| row_count := List.length (f_index d);
                         summary_revenue := rev; summary_profit := prof |}
      end
  end.

(* ------------------------------------------------------------------ *)
(** ** Auxiliary definitions for the statements *)

(** A raw record with its [sales_amount] cell blanked. *)
Definition without_sales_amount (r : raw_record) : raw_record :=
  {| r_product_id := r_product_id r; r_sale_date := r_sale_date r;
     r_sales_rep := r_sales_rep r; r_region := r_region r;
     r_category := r_category r; r_quantity := r_quantity r;
     r_unit_cost := r_unit_cost r; r_unit_price := r_unit_price r;
     r_discount_pct := r_discount_pct r; r_sales_amount := RNull |}.

Definition kept_without_amount (k : kept_row) : kept_row :=
  {| k_idx := k_idx k; k_product_id := k_product_id k; k_sale_date := k_sale_date k;
     k_sales_rep := k_sales_rep k; k_region := k_region k; k_category := k_category k;
     k_quantity := k_quantity k; k_unit_cost := k_unit_cost k;
     k_unit_price := k_unit_price k; k_discount_pct := k_discount_pct k;
     k_raw_sales_amount := None |}.

Definition sr_triple (r : sales_record) : triple := (product_id r, sale_date r, sales_rep r).

(** The first row of a list carrying a given triple. *)
Definition find_sr (t : triple) (l : list sales_record) : option sales_record :=
  find (fun r => triple_eqb (sr_triple r) t) l.
Definition find_kept (t : triple) (l : list kept_row) : option kept_row :=
  find (fun k => triple_eqb (triple_of k) t) l.

(** Order of the cleaned rows: by date, then by position in the file. *)
Definition date_then_file_order (a b : sales_record) : Prop :=
  sale_date a < sale_date b \/ (sale_date a = sale_date b /\ (s_idx a < s_idx b)%nat).

(** The sheets the [with] block writes before the summary sheet. *)
Definition data_and_analysis_sheets (data : option frame) (analyses : dict frame) : dict frame :=
  match data with Some d => [("Очищенные_данные"%string, d)] | None => [] end
  ++ flat_map (fun '(n, df) => if f_empty df then [] else [(sheet_short n, df)]) analyses.

(** The files [export_to_csv] has written, as found in a list of events. *)
Definition csv_export_complete (data : option frame) (ts : string) (analyses : dict frame)
    (evs : list event) : Prop :=
  (forall d, data = Some d -> In (EvCsv ("cleaned_data_" ++ ts ++ ".csv") d) evs)
  /\ (forall n df, In (n, df) analyses -> f_empty df = false ->
        In (EvCsv (n ++ "_" ++ ts ++ ".csv") df) evs)
  /\ (exists lines, In (EvTxt ("summary_" ++ ts ++ ".txt") lines) evs).

(* ------------------------------------------------------------------ *)
(** ** Concrete inputs *)

Definition st0 : st := {| events := []; book := [] |}.

Definition env_ok : env :=
  {| openpyxl_available := true; sheet_fail := fun _ => None; save_fail := None;
     file_fail := fun _ => None |}.

Definition env_no_openpyxl : env :=
  {| openpyxl_available := false; sheet_fail := fun _ => None; save_fail := None;
     file_fail := fun _ => None |}.

(** A two-row cleaned frame without a [Profit] column. *)
Definition frame_no_profit : frame :=
  {| f_columns := ["Sales_Amount"%string; "Region"%string];
     f_index := ["0"%string; "1"%string];
     f_rows := [[CNum 200; CStr "North"]; [CNum 45; CStr "South"]] |}.

Definition frame_no_rows : frame :=
  {| f_columns := [col_revenue]; f_index := []; f_rows := [] |}.

Definition frame_regions : frame :=
  {| f_columns := [col_revenue]; f_index := ["North"%string; "South"%string];
     f_rows := [[CNum 200]; [CNum 45]] |}.

Definition report_empty_category : dict frame :=
  [(key_categories, frame_no_rows); (key_regions, frame_regions)].

Definition mk_raw (p d s g c : string) (q : Z) (price disc : Q) (sa : rval) : raw_record :=
  {| r_product_id := RStr p; r_sale_date := RStr d; r_sales_rep := RStr s;
     r_region := RStr g; r_category := RStr c; r_quantity := RInt q;
     r_unit_cost := RNull; r_unit_price := RNum price; r_discount_pct := RNum disc;
     r_sales_amount := sa |}.

(** The scenario of the spec, section 8, with a stale [sales_amount] on the
    duplicate. *)
Definition raws_scenario : list raw_record :=
  [mk_raw "P001" "2023-01-01" "Alice" "North" "Electronics" 2 100 0 RNull;
   mk_raw "P002" "2023-01-02" "Bob" "South" "Food" 1 50 10 (RNum 50);
   mk_raw "P001" "2023-01-01" "Alice" "North" "Electronics" 2 100 0 (RNum 7)].

(* ------------------------------------------------------------------ *)
(** ** Calls, sheet names and file choice *)


(** An action that raises from every state. *)
Definition fails {A} (m : M A) : Prop := forall s, exists e s', m s = (Err e, s').


(** [len(s)] of a UTF-8 string: the bytes that are not continuation bytes. *)
Definition utf8_count (l : list ascii) : nat :=
  List.length (filter (fun c => negb ((128 <=? nat_of_ascii c)%nat && (nat_of_ascii c <? 192)%nat)) l).

(** [s.endswith(suffix)] *)
Definition ends_with (suffix s : string) : bool :=
  let n := String.length s in
  let k := String.length suffix in
  (k <=? n)%nat && String.eqb (substring (n - k) k s) suffix.

Section FileChoice.
(** The Python builtins [str.isdigit], [int], [str.strip] and
    [os.path.exists], which follow Unicode tables and the file system. *)
Variable isdigit : string -> bool.
Variable py_int : string -> result Z.
Variable strip : string -> string.
Variable path_exists : string -> bool.

(** [input(prompt)], reading the next of the user's answers; the prompt is
    written to the console (leading newline dropped). *)
Definition input (prompt : string) (answers : list string) : M (string * list string) :=
  match answers with
  | [] => raise (OtherError "EOFError")
  | a :: rest => print prompt ;;; ret (a, rest)
  end.

(** Lines 120-130. *)
Definition manual_path (answers : list string) : M (option string) :=
  r <- input "Введите путь к CSV файлу: " answers ;;
  let file_path := strip (fst r) in
  if String.eqb file_path "" then print "Путь не указан" ;;; ret None
  else if negb (path_exists file_path) then
    print ("Файл не найден: " ++ file_path)%string ;;; ret None
  else ret (Some file_path).

(** [SalesAnalysisSystem.get_file_path] (lines 103-130); [listing] is
    [os.listdir('.')]. *)
Definition get_file_path (listing answers : list string) : M (option string) :=
  let csv_files := filter (ends_with ".csv") listing in
  match csv_files with
  | [] => manual_path answers
  | _ :: _ =>
      print "Найденные CSV файлы:" ;;;
      mapM_ (fun '(i, file) => print ("  " ++ str_of_nat i ++ ". " ++ file)%string)
        (combine (seq 1 (List.length csv_files)) csv_files) ;;;
      r <- input "Выберите файл (номер) или введите свой путь: " answers ;;
      let choice := strip (fst r) in
      if isdigit choice then
        k <- lift (py_int choice) ;;
        if (1 <=? k) && (k <=? Z.of_nat (List.length csv_files)) then
          ret (Some (nth (Z.to_nat (k - 1)) csv_files ""%string))
        else manual_path (snd r)
      else manual_path (snd r)
  end.

End FileChoice.

(** The builtins of [get_file_path] on ASCII text, for concrete runs. *)
Definition ascii_is_digit (c : ascii) : bool :=
  (48 <=? nat_of_ascii c)%nat && (nat_of_ascii c <=? 57)%nat.
Definition ascii_isdigit (s : string) : bool :=
  negb (String.eqb s "") && forallb ascii_is_digit (list_ascii_of_string s).
Definition ascii_int (s : string) : result Z :=
  match parse_int s with Some z => Ok z | None => Err ValueError end.
Definition ascii_ws (c : ascii) : bool := existsb (is_char c) [32; 9; 10; 11; 12; 13]%nat.
Fixpoint drop_ws (l : list ascii) : list ascii :=
  match l with c :: t => if ascii_ws c then drop_ws t else l | [] => [] end.
Definition ascii_strip (s : string) : string :=
  string_of_list_ascii (rev (drop_ws (rev (drop_ws (list_ascii_of_string s))))).

(** A directory with two CSV files, and a file system where only
    "data/sales.csv" exists. *)
Definition listing_example : list string :=
  ["notes.txt"%string; "sales_2023.csv"%string; "sales_2024.csv"%string].
Definition exists_example (p : string) : bool := String.eqb p "data/sales.csv".

(** A report whose only summary table, by region, has rows. *)
Definition report_regions : dict frame := [(key_regions, frame_regions)].

(** The revenue of a list of groups. *)
Definition groups_revenue {K} (gs : list (K * list sales_record)) : Z :=
  fold_right (fun g acc => revenue (snd g) + acc) 0 gs.

(* ================================================================== *)
(** * Proofs *)

(** ** Validation *)

Lemma fcheck_val {A} (p : A -> bool) reason (f : fres A) a :
  fval (fcheck p reason f) = Some a -> p a = true.
Proof.
  destruct f as [x|x|r]; simpl; try discriminate;
    destruct (p x) eqn:Hp; simpl; intros H; inversion H; subst; auto.
Qed.

Lemma fmap_res_val {A B} (g : A -> B) (f : fres A) b :
  fval (fmap_res g f) = Some b -> exists a, fval f = Some a /\ b = g a.
Proof. destruct f; simpl; intros H; inversion H; eauto. Qed.

Ltac destruct_fvals :=
  repeat match goal with
         | |- context [match fval ?f with _ => _ end] =>
             let E := fresh "Ef" in destruct (fval f) eqn:E
         end.

Lemma validate_kept i r k :
  In k (kept_of (validate i r)) ->
  0 < k_quantity k /\ (0 <= k_discount_pct k)%Q /\ (k_discount_pct k < 100)%Q
  /\ k_idx k = i.
Proof.
  unfold validate. destruct_fvals; simpl; try tauto.
  match goal with |- context [if ?c then _ else _] => destruct c end;
    simpl; intros [H|[]]; subst k; simpl.
  all: match goal with
       | Hq : fval (v_quantity _) = Some _, Hd : fval (v_discount _) = Some _ |- _ =>
           apply fcheck_val in Hq; apply fcheck_val in Hd;
           apply andb_true_iff in Hd as [H0 H100]
       end;
    apply Qle_bool_iff in H0; apply negb_true_iff in H100;
    repeat split; auto; try lia.
  all: apply Qnot_le_lt; intros Hle; apply Qle_bool_iff in Hle; congruence.
Qed.

Lemma validate_from_kept i rs k :
  In k (flat_map kept_of (validate_from i rs)) ->
  0 < k_quantity k /\ (0 <= k_discount_pct k)%Q /\ (k_discount_pct k < 100)%Q
  /\ (i <= k_idx k)%nat.
Proof.
  revert i; induction rs as [|r rs IH]; simpl; intros i H; [tauto|].
  apply in_app_or in H as [H|H].
  - apply validate_kept in H. intuition lia.
  - apply IH in H. intuition lia.
Qed.

(** ** Deduplication and sorting: structure *)

Lemma dedup_go_incl seen l k : In k (dedup_go seen l) -> In k l.
Proof.
  revert seen; induction l as [|x l IH]; simpl; intros seen H; [tauto|].
  destruct (existsb _ seen).
  - right; eapply IH; eauto.
  - destruct H as [H|H]; [left; auto | right; eapply IH; eauto].
Qed.

Lemma insert_by_perm {A} (le : A -> A -> bool) x l :
  Permutation (insert_by le x l) (x :: l).
Proof.
  induction l as [|y l IH]; simpl; [auto|].
  destruct (le x y); [auto|].
  eapply perm_trans; [apply perm_skip, IH | apply perm_swap].
Qed.

Lemma sort_by_perm {A} (le : A -> A -> bool) l : Permutation (sort_by le l) l.
Proof.
  induction l as [|x l IH]; simpl; [auto|].
  eapply perm_trans; [apply insert_by_perm | auto].
Qed.

Lemma in_cleaned raws r :
  In r (cleaned raws) -> exists k, In k (dedup (kept_rows raws)) /\ r = derive k.
Proof.
  unfold cleaned, clean; simpl. intros H.
  apply (Permutation_in _ (sort_by_perm _ _)) in H.
  apply in_map_iff in H as [k [Hk Hin]]. eauto.
Qed.

Lemma in_cleaned_kept raws r :
  In r (cleaned raws) -> exists k, In k (kept_rows raws) /\ r = derive k.
Proof.
  intros H; apply in_cleaned in H as [k [Hk ->]].
  exists k; split; [eapply dedup_go_incl; eauto | auto].
Qed.

(** ** Independence from the raw [sales_amount] *)

Lemma validate_without_amount i r :
  validate i (without_sales_amount r) =
  match validate i r with
  | Accept k => Accept (kept_without_amount k)
  | Coerce k => Coerce (kept_without_amount k)
  | Reject rs => Reject rs
  end.
Proof.
  unfold validate; simpl. destruct_fvals; try reflexivity.
  match goal with |- context [if ?c then _ else _] => destruct c end; reflexivity.
Qed.

Lemma kept_rows_without_amount raws :
  kept_rows (map without_sales_amount raws) = map kept_without_amount (kept_rows raws).
Proof.
  unfold kept_rows. generalize 0%nat.
  induction raws as [|r raws IH]; intros i; simpl; [reflexivity|].
  rewrite validate_without_amount, IH, map_app.
  destruct (validate i r); reflexivity.
Qed.

Lemma dedup_go_without_amount seen l :
  dedup_go seen (map kept_without_amount l) = map kept_without_amount (dedup_go seen l).
Proof.
  revert seen; induction l as [|k l IH]; intros seen; simpl; [reflexivity|].
  change (triple_of (kept_without_amount k)) with (triple_of k).
  destruct (existsb _ seen); simpl; rewrite IH; reflexivity.
Qed.

Lemma cleaned_without_amount raws :
  cleaned (map without_sales_amount raws) = cleaned raws.
Proof.
  unfold cleaned, clean; simpl. fold (kept_rows (map without_sales_amount raws)).
  fold (kept_rows raws).
  rewrite kept_rows_without_amount. unfold dedup. rewrite dedup_go_without_amount.
  rewrite map_map. reflexivity.
Qed.

(** ** Aggregation: revenue sums *)

Lemma revenue_app a b : revenue (a ++ b) = revenue a + revenue b.
Proof. induction a as [|x a IH]; simpl; lia. Qed.

Lemma add_to_groups_revenue {K} (keq : K -> K -> bool) k r gs :
  groups_revenue (add_to_groups keq k r gs) = groups_revenue gs + sales_amount r.
Proof.
  induction gs as [|[k' rs] gs IH]; simpl; [lia|].
  destruct (keq k k'); simpl.
  - rewrite revenue_app; simpl; lia.
  - rewrite IH; lia.
Qed.

Lemma group_by_revenue {K} (keq : K -> K -> bool) key rows :
  groups_revenue (group_by keq key rows) = revenue rows.
Proof.
  unfold group_by.
  assert (H : forall gs, groups_revenue
                (fold_left (fun gs r => add_to_groups keq (key r) r gs) rows gs)
              = groups_revenue gs + revenue rows).
  { induction rows as [|r rows IH]; intros gs; simpl; [lia|].
    rewrite IH, add_to_groups_revenue; lia. }
  rewrite H; reflexivity.
Qed.

Lemma sum_revenues_perm {K} (l l' : list (group_row K)) :
  Permutation l l' ->
  fold_right Z.add 0 (map total_revenue l) = fold_right Z.add 0 (map total_revenue l').
Proof. induction 1; simpl; lia. Qed.

Lemma sum_revenues_aggregate {K} (gs : list (K * list sales_record)) :
  fold_right Z.add 0 (map total_revenue (map aggregate gs)) = groups_revenue gs.
Proof. induction gs as [|[k rs] gs IH]; simpl; [reflexivity|]. rewrite IH; reflexivity. Qed.

Lemma sorted_groups_revenue {K} (le : group_row K -> group_row K -> bool) keq key rows :
  fold_right Z.add 0 (map total_revenue (sort_by le (map aggregate (group_by keq key rows))))
  = revenue rows.
Proof.
  rewrite (sum_revenues_perm _ _ (sort_by_perm _ _)).
  rewrite sum_revenues_aggregate. apply group_by_revenue.
Qed.

(** ** Claims C2, C3, C4 *)

(** C2: every row of a Cleaned Dataset has [quantity > 0],
    [0 <= discount_pct < 100], and a [sales_amount] equal to the value
    recomputed from [unit_price], [quantity] and [discount_pct], rounded to
    2 decimals. *)
Theorem cleaned_rows_invariants (raws : list raw_record) (r : sales_record) :
  In r (cleaned raws) ->
  0 < quantity r /\ (0 <= discount_pct r)%Q /\ (discount_pct r < 100)%Q
  /\ sales_amount r = recompute_sales_amount (unit_price r) (quantity r) (discount_pct r).
Proof.
  intros H. apply in_cleaned_kept in H as [k [Hk ->]].
  apply validate_from_kept in Hk as (Hq & Hd0 & Hd1 & _).
  simpl. repeat split; auto.
Qed.

(** C3: for each of [by_category], [by_region], [by_sales_rep] and
    [by_time], the group [total_revenue]s sum to the dataset's revenue. *)
Theorem group_revenues_sum_to_total (rows : list sales_record) :
  fold_right Z.add 0 (map total_revenue (by_category rows)) = revenue rows
  /\ fold_right Z.add 0 (map total_revenue (by_region rows)) = revenue rows
  /\ fold_right Z.add 0 (map total_revenue (by_sales_rep rows)) = revenue rows
  /\ fold_right Z.add 0 (map total_revenue (by_time rows)) = revenue rows.
Proof.
  unfold by_category, by_region, by_sales_rep, by_time, revenue_table.
  repeat split; apply sorted_groups_revenue.
Qed.

(** C4: every kept row's [sales_amount] is
    [round(unit_price * quantity * (1 - discount_pct/100), 2)], and the raw
    [sales_amount] column has no effect on the Cleaned Dataset: two raw
    tables that differ only in it are cleaned to the same rows (a
    conflicting raw value is overridden, never a reason to reject). *)
Theorem sales_amount_recomputed (raws : list raw_record) :
  (forall r, In r (cleaned raws) ->
     sales_amount r = round2 (unit_price r * inject_Z (quantity r) * (1 - discount_pct r / 100))%Q)
  /\ (forall raws', map without_sales_amount raws' = map without_sales_amount raws ->
        cleaned raws' = cleaned raws).
Proof.
  split.
  - intros r H. apply in_cleaned_kept in H as [k [_ ->]]. reflexivity.
  - intros raws' Heq.
    rewrite <- (cleaned_without_amount raws'), <- (cleaned_without_amount raws), Heq.
    reflexivity.
Qed.

(** ** Deduplication: first occurrences *)

Lemma triple_eqb_eq a b : triple_eqb a b = true <-> a = b.
Proof.
  destruct a as [[p1 d1] s1], b as [[p2 d2] s2]; simpl.
  rewrite !andb_true_iff, !String.eqb_eq, Z.eqb_eq.
  split; [intros [[-> ->] ->]; reflexivity | intros H; inversion H; auto].
Qed.

Arguments triple_eqb : simpl never.

Lemma triple_eqb_refl a : triple_eqb a a = true.
Proof. apply triple_eqb_eq; reflexivity. Qed.

Lemma triple_eqb_sym a b : triple_eqb a b = triple_eqb b a.
Proof.
  destruct (triple_eqb a b) eqn:H1, (triple_eqb b a) eqn:H2; auto.
  - apply triple_eqb_eq in H1; subst; rewrite triple_eqb_refl in H2; discriminate.
  - apply triple_eqb_eq in H2; subst; rewrite triple_eqb_refl in H1; discriminate.
Qed.

Lemma dedup_go_find seen l t :
  find_kept t (dedup_go seen l) =
  if existsb (triple_eqb t) seen then None else find_kept t l.
Proof.
  unfold find_kept; revert seen; induction l as [|k l IH]; intros seen; simpl.
  - destruct (existsb _ seen); reflexivity.
  - destruct (triple_eqb (triple_of k) t) eqn:Hkt.
    + apply triple_eqb_eq in Hkt. subst t.
      destruct (existsb (triple_eqb (triple_of k)) seen) eqn:Hs; simpl.
      * rewrite IH, Hs; reflexivity.
      * rewrite triple_eqb_refl; reflexivity.
    + destruct (existsb (triple_eqb (triple_of k)) seen) eqn:Hs; simpl.
      * rewrite IH. reflexivity.
      * rewrite Hkt, IH; simpl. rewrite triple_eqb_sym, Hkt; reflexivity.
Qed.

Lemma dedup_go_nodup seen l :
  NoDup (map triple_of (dedup_go seen l))
  /\ forall k, In k (dedup_go seen l) -> existsb (triple_eqb (triple_of k)) seen = false.
Proof.
  revert seen; induction l as [|k l IH]; intros seen; simpl.
  - split; [constructor | tauto].
  - destruct (existsb (triple_eqb (triple_of k)) seen) eqn:Hs; [apply IH|].
    destruct (IH (triple_of k :: seen)) as [Hnd Hnot]. split.
    + simpl; constructor; auto.
      intros Hin. apply in_map_iff in Hin as [k' [Heq Hin]].
      apply Hnot in Hin. simpl in Hin. rewrite Heq, triple_eqb_refl in Hin. discriminate.
    + intros k' [<-|Hin]; auto.
      apply Hnot in Hin. simpl in Hin. apply orb_false_iff in Hin; tauto.
Qed.

Lemma find_sr_map_derive t l :
  find_sr t (map derive l) = option_map derive (find_kept t l).
Proof.
  induction l as [|k l IH]; simpl; [reflexivity|].
  unfold find_sr in *; simpl. change (sr_triple (derive k)) with (triple_of k).
  destruct (triple_eqb (triple_of k) t); [reflexivity | exact IH].
Qed.

Lemma nodup_map_inj {A B} (f : A -> B) l x y :
  NoDup (map f l) -> In x l -> In y l -> f x = f y -> x = y.
Proof.
  induction l as [|z l IH]; simpl; [tauto|].
  intros Hnd Hx Hy Hf. inversion Hnd as [|? ? Hnotin Hnd']; subst.
  destruct Hx as [<-|Hx], Hy as [<-|Hy]; auto.
  - exfalso; apply Hnotin; rewrite Hf; apply in_map; auto.
  - exfalso; apply Hnotin; rewrite <- Hf; apply in_map; auto.
Qed.

Lemma find_perm_nodup {A} (key : A -> triple) (l l' : list A) t :
  Permutation l l' -> NoDup (map key l) ->
  find (fun x => triple_eqb (key x) t) l = find (fun x => triple_eqb (key x) t) l'.
Proof.
  intros Hp Hnd.
  assert (Hnd' : NoDup (map key l')) by (eapply Permutation_NoDup; [apply Permutation_map, Hp | auto]).
  destruct (find _ l) as [x|] eqn:E1; destruct (find _ l') as [y|] eqn:E2; auto.
  - apply find_some in E1 as [Hx Htx]. apply find_some in E2 as [Hy Hty].
    apply triple_eqb_eq in Htx, Hty. f_equal.
    apply (nodup_map_inj key l); auto.
    + apply (Permutation_in _ (Permutation_sym Hp)); auto.
    + congruence.
  - apply find_some in E1 as [Hx Htx].
    rewrite (find_none _ _ E2 x) in Htx; [discriminate | apply (Permutation_in _ Hp); auto].
  - apply find_some in E2 as [Hy Hty].
    rewrite (find_none _ _ E1 y) in Hty;
      [discriminate | apply (Permutation_in _ (Permutation_sym Hp)); auto].
Qed.

(** C5: the Cleaned Dataset has no two rows with the same
    (product_id, sale_date, sales_rep); for each triple, its row is the one
    derived from the first kept row with that triple in file order; and
    [duplicates_dropped] counts the kept rows that were dropped. *)
Theorem dedup_keeps_first_occurrence (raws : list raw_record) :
  NoDup (map sr_triple (cleaned raws))
  /\ (forall t, find_sr t (cleaned raws) = option_map derive (find_kept t (kept_rows raws)))
  /\ duplicates_dropped (fst (clean raws))
     = (List.length (kept_rows raws) - List.length (cleaned raws))%nat.
Proof.
  assert (Hsr : forall l, map sr_triple (map derive l) = map triple_of l).
  { intros l; rewrite map_map; reflexivity. }
  destruct (dedup_go_nodup [] (kept_rows raws)) as [Hnd _].
  assert (Hnd2 : NoDup (map sr_triple (map derive (dedup (kept_rows raws))))).
  { rewrite Hsr; exact Hnd. }
  unfold cleaned, clean; simpl; fold (kept_rows raws); fold (dedup (kept_rows raws)).
  repeat split.
  - eapply Permutation_NoDup; [apply Permutation_map, Permutation_sym, sort_by_perm | exact Hnd2].
  - intros t. unfold find_sr.
    rewrite <- (find_perm_nodup sr_triple _ _ t (Permutation_sym (sort_by_perm _ _)) Hnd2).
    fold (find_sr t (map derive (dedup (kept_rows raws)))).
    rewrite find_sr_map_derive. unfold dedup. rewrite dedup_go_find. reflexivity.
  - rewrite (Permutation_length (sort_by_perm _ _)), length_map. reflexivity.
Qed.

(** ** Sorting: order *)

Section InsertionSort.
Context {A : Type} (le : A -> A -> bool).
Hypothesis le_total : forall a b, le a b = false -> le b a = true.

Let R := fun a b => le a b = true.

Lemma HdRel_insert_by a x l : R a x -> HdRel R a l -> HdRel R a (insert_by le x l).
Proof.
  destruct l as [|y l]; simpl; intros Hax Hl; [constructor; auto|].
  destruct (le x y); constructor; auto. inversion Hl; auto.
Qed.

Lemma insert_by_sorted x l : Sorted R l -> Sorted R (insert_by le x l).
Proof.
  induction l as [|y l IH]; simpl; intros H; [repeat constructor|].
  inversion H as [|? ? Hl Hhd]; subst.
  destruct (le x y) eqn:Exy.
  - constructor; [exact H | constructor; exact Exy].
  - constructor; [apply IH, Hl | apply HdRel_insert_by; [apply le_total, Exy | exact Hhd]].
Qed.

Lemma sort_by_sorted l : Sorted R (sort_by le l).
Proof. induction l; simpl; [constructor | apply insert_by_sorted; auto]. Qed.

Lemma sort_by_strongly_sorted (le_trans : forall a b c, R a b -> R b c -> R a c) l :
  StronglySorted R (sort_by le l).
Proof. apply Sorted_StronglySorted; [exact le_trans | apply sort_by_sorted]. Qed.

End InsertionSort.

Lemma ascii_compare_lt_trans a b c :
  Ascii.compare a b = Lt -> Ascii.compare b c = Lt -> Ascii.compare a c = Lt.
Proof. unfold Ascii.compare; rewrite !N.compare_lt_iff; lia. Qed.

Lemma ascii_compare_refl a : Ascii.compare a a = Eq.
Proof. unfold Ascii.compare; apply N.compare_refl. Qed.

Lemma string_compare_lt_trans s1 s2 s3 :
  String.compare s1 s2 = Lt -> String.compare s2 s3 = Lt -> String.compare s1 s3 = Lt.
Proof.
  revert s2 s3; induction s1 as [|a1 s1 IH]; intros [|a2 s2] [|a3 s3]; simpl;
    intros H1 H2; try discriminate; auto.
  destruct (Ascii.compare a1 a2) eqn:E12; try discriminate;
    destruct (Ascii.compare a2 a3) eqn:E23; try discriminate.
  - apply Ascii.compare_eq_iff in E12, E23; subst.
    rewrite ascii_compare_refl; eauto.
  - apply Ascii.compare_eq_iff in E12; subst. rewrite E23; reflexivity.
  - apply Ascii.compare_eq_iff in E23; subst. rewrite E12; reflexivity.
  - rewrite (ascii_compare_lt_trans _ _ _ E12 E23); reflexivity.
Qed.

Lemma string_leb_trans s1 s2 s3 :
  String.leb s1 s2 = true -> String.leb s2 s3 = true -> String.leb s1 s3 = true.
Proof.
  unfold String.leb.
  destruct (String.compare s1 s2) eqn:E12; try discriminate;
    destruct (String.compare s2 s3) eqn:E23; try discriminate; intros _ _.
  - apply String.compare_eq_iff in E12, E23; subst.
    destruct (String.compare s3 s3) eqn:E; auto.
    pose proof (String.compare_antisym s3 s3) as Ha; rewrite E in Ha; discriminate.
  - apply String.compare_eq_iff in E12; subst; rewrite E23; reflexivity.
  - apply String.compare_eq_iff in E23; subst; rewrite E12; reflexivity.
  - rewrite (string_compare_lt_trans _ _ _ E12 E23); reflexivity.
Qed.

Lemma rev_leb_total a b : rev_leb a b = false -> rev_leb b a = true.
Proof.
  unfold rev_leb. rewrite !orb_false_iff, !orb_true_iff, !andb_false_iff, !andb_true_iff,
    Z.ltb_ge, Z.ltb_lt, !Z.eqb_eq, Z.eqb_neq.
  intros [Hlt [Hne|Hk]]; [left; lia|].
  destruct (Z.eq_dec (total_revenue a) (total_revenue b)) as [He|He]; [right|left; lia].
  split; [lia|]. destruct (String.leb_total (g_key a) (g_key b)) as [H|H]; congruence.
Qed.

Lemma rev_leb_trans a b c : rev_leb a b = true -> rev_leb b c = true -> rev_leb a c = true.
Proof.
  unfold rev_leb. rewrite !orb_true_iff, !andb_true_iff, !Z.ltb_lt, !Z.eqb_eq.
  intros [H1|[H1 K1]] [H2|[H2 K2]]; try (left; lia).
  right; split; [lia | eapply string_leb_trans; eauto].
Qed.

Lemma month_leb_total a b : month_leb a b = false -> month_leb b a = true.
Proof. unfold month_leb; rewrite Z.leb_gt, Z.leb_le; lia. Qed.

Lemma month_leb_trans a b c : month_leb a b = true -> month_leb b c = true -> month_leb a c = true.
Proof. unfold month_leb; rewrite !Z.leb_le; lia. Qed.

(** ** Aggregation: one group per key *)

Section GroupKeys.
Context {K : Type} (keq : K -> K -> bool).
Hypothesis keq_eq : forall a b, keq a b = true <-> a = b.

Lemma add_to_groups_keys k r gs :
  NoDup (map fst gs) ->
  NoDup (map fst (add_to_groups keq k r gs))
  /\ (forall x, In x (map fst (add_to_groups keq k r gs)) -> x = k \/ In x (map fst gs)).
Proof.
  induction gs as [|[k' rs] gs IH]; simpl; intros Hnd.
  - split; [repeat constructor; simpl; tauto | intros x [H|[]]; auto].
  - inversion Hnd as [|? ? Hnotin Hnd']; subst.
    destruct (keq k k') eqn:Ek; simpl.
    + split; [constructor; auto | intros x [H|H]; auto].
    + destruct (IH Hnd') as [Hnd2 Hin2]. split.
      * constructor; auto. intros Hx. destruct (Hin2 _ Hx) as [He|He]; auto.
        subst. assert (keq k k = true) by (apply keq_eq; auto). congruence.
      * intros x [H|H]; auto. destruct (Hin2 _ H); auto.
Qed.

Lemma group_by_keys_nodup key rows : NoDup (map fst (group_by keq key rows)).
Proof.
  unfold group_by.
  assert (H : forall gs, NoDup (map fst gs) ->
    NoDup (map fst (fold_left (fun gs r => add_to_groups keq (key r) r gs) rows gs))).
  { induction rows as [|r rows IH]; simpl; intros gs Hgs; auto.
    apply IH, add_to_groups_keys, Hgs. }
  apply H; constructor.
Qed.

End GroupKeys.

Lemma aggregate_keys {K} (gs : list (K * list sales_record)) :
  map g_key (map aggregate gs) = map fst gs.
Proof. induction gs as [|[k rs] gs IH]; simpl; [reflexivity | rewrite IH; reflexivity]. Qed.

Lemma strongly_sorted_strict (l : list (group_row Z)) :
  StronglySorted (fun a b => month_leb a b = true) l -> NoDup (map g_key l) ->
  StronglySorted (fun a b => g_key a < g_key b) l.
Proof.
  induction l as [|a l IH]; intros Hs Hnd; [constructor|].
  inversion Hs as [|? ? Hl Hf]; inversion Hnd as [|? ? Hnotin Hnd']; subst.
  constructor; auto.
  rewrite Forall_forall in *. intros b Hb. specialize (Hf b Hb).
  unfold month_leb in Hf; apply Z.leb_le in Hf.
  assert (g_key a <> g_key b) by (intros He; apply Hnotin; rewrite He; apply in_map; auto).
  lia.
Qed.

Lemma strongly_sorted_head {A} (R : A -> A -> Prop) (f : A -> Z) (l : list A) x :
  (forall a, R x a -> f a <= f x) ->
  StronglySorted R l -> hd_error l = Some x -> Forall (fun g => f g <= f x) l.
Proof.
  intros HR Hs Hhd. destruct l as [|y l]; [constructor|].
  simpl in Hhd; inversion Hhd; subst.
  inversion Hs as [|? ? _ Hf]; subst. constructor; [lia|].
  eapply Forall_impl; [|exact Hf]. exact HR.
Qed.

Lemma rev_leb_revenue a b : rev_leb a b = true -> total_revenue b <= total_revenue a.
Proof.
  unfold rev_leb; rewrite orb_true_iff, andb_true_iff, Z.ltb_lt, Z.eqb_eq; lia.
Qed.

Lemma revenue_table_sorted key rows :
  StronglySorted (fun a b => rev_leb a b = true) (revenue_table key rows)
  /\ forall g0, hd_error (revenue_table key rows) = Some g0 ->
       Forall (fun g => total_revenue g <= total_revenue g0) (revenue_table key rows).
Proof.
  assert (Hs : StronglySorted (fun a b => rev_leb a b = true) (revenue_table key rows)).
  { apply sort_by_strongly_sorted; [apply rev_leb_total | apply rev_leb_trans]. }
  split; auto. intros g0 Hhd.
  eapply strongly_sorted_head; [|exact Hs|exact Hhd]. apply rev_leb_revenue.
Qed.

(** C6: [by_category], [by_region] and [by_sales_rep] are ordered by
    descending [total_revenue], ties by ascending key, so their first row
    has the largest [total_revenue]; [by_time] is strictly ascending by
    month. *)
Theorem analyses_ordering (rows : list sales_record) :
  StronglySorted (fun a b => rev_leb a b = true) (by_category rows)
  /\ StronglySorted (fun a b => rev_leb a b = true) (by_region rows)
  /\ StronglySorted (fun a b => rev_leb a b = true) (by_sales_rep rows)
  /\ StronglySorted (fun a b => g_key a < g_key b) (by_time rows)
  /\ (forall g0, hd_error (by_category rows) = Some g0 ->
        Forall (fun g => total_revenue g <= total_revenue g0) (by_category rows))
  /\ (forall g0, hd_error (by_region rows) = Some g0 ->
        Forall (fun g => total_revenue g <= total_revenue g0) (by_region rows))
  /\ (forall g0, hd_error (by_sales_rep rows) = Some g0 ->
        Forall (fun g => total_revenue g <= total_revenue g0) (by_sales_rep rows)).
Proof.
  destruct (revenue_table_sorted category rows) as [Hc Hc'].
  destruct (revenue_table_sorted region rows) as [Hr Hr'].
  destruct (revenue_table_sorted sales_rep rows) as [Hp Hp'].
  unfold by_category, by_region, by_sales_rep.
  repeat split; auto.
  unfold by_time. apply strongly_sorted_strict.
  - apply sort_by_strongly_sorted; [apply month_leb_total | apply month_leb_trans].
  - eapply Permutation_NoDup; [apply Permutation_map, Permutation_sym, sort_by_perm|].
    rewrite aggregate_keys. apply group_by_keys_nodup. apply Z.eqb_eq.
Qed.

(** ** Cleaned Dataset order: stable by date *)

Lemma kept_rows_file_order i rs :
  StronglySorted (fun a b => (k_idx a < k_idx b)%nat) (flat_map kept_of (validate_from i rs)).
Proof.
  revert i; induction rs as [|r rs IH]; intros i; simpl; [constructor|].
  destruct (validate i r) as [k|k|rs'] eqn:Ev; simpl; auto.
  all: assert (Hk : k_idx k = i) by
         (apply (validate_kept i r k); rewrite Ev; simpl; auto).
  all: constructor; auto; apply Forall_forall; intros k' Hk';
         apply validate_from_kept in Hk'; lia.
Qed.

Lemma dedup_go_sorted {R : kept_row -> kept_row -> Prop} seen l :
  StronglySorted R l -> StronglySorted R (dedup_go seen l).
Proof.
  revert seen; induction l as [|k l IH]; intros seen Hs; simpl; [constructor|].
  inversion Hs as [|? ? Hl Hf]; subst.
  destruct (existsb _ seen); auto.
  constructor; auto. rewrite Forall_forall in *. intros k' Hk'.
  apply Hf. eapply dedup_go_incl; eauto.
Qed.

Lemma derive_file_order l :
  StronglySorted (fun a b => (k_idx a < k_idx b)%nat) l ->
  StronglySorted (fun a b => (s_idx a < s_idx b)%nat) (map derive l).
Proof.
  induction l as [|k l IH]; intros Hs; simpl; [constructor|].
  inversion Hs as [|? ? Hl Hf]; subst. constructor; auto.
  apply Forall_map. eapply Forall_impl; [|exact Hf]. simpl; auto.
Qed.

Lemma insert_by_date_stable x l :
  StronglySorted date_then_file_order l ->
  Forall (fun y => (s_idx x < s_idx y)%nat) l ->
  StronglySorted date_then_file_order (insert_by date_leb x l).
Proof.
  induction l as [|y l IH]; intros Hs Hx; simpl; [repeat constructor|].
  inversion Hs as [|? ? Hl Hf]; inversion Hx as [|? ? Hxy Hxl]; subst.
  unfold date_leb at 1. destruct (sale_date x <=? sale_date y) eqn:Ed.
  - apply Z.leb_le in Ed. constructor; [exact Hs|].
    constructor.
    + unfold date_then_file_order; lia.
    + eapply Forall_impl; [|exact Hf]. unfold date_then_file_order; intros z; lia.
  - apply Z.leb_gt in Ed. constructor; [apply IH; auto|].
    apply Forall_forall; intros z Hz.
    apply (Permutation_in _ (insert_by_perm _ _ _)) in Hz as [<-|Hz].
    + unfold date_then_file_order; lia.
    + rewrite Forall_forall in Hf; auto.
Qed.

Lemma sort_by_date_stable l :
  StronglySorted (fun a b => (s_idx a < s_idx b)%nat) l ->
  StronglySorted date_then_file_order (sort_by date_leb l).
Proof.
  induction l as [|x l IH]; intros Hs; simpl; [constructor|].
  inversion Hs as [|? ? Hl Hf]; subst.
  apply insert_by_date_stable; auto.
  rewrite Forall_forall in *. intros y Hy.
  apply Hf, (Permutation_in _ (sort_by_perm date_leb l)), Hy.
Qed.

(** Two arrangements of the same rows sorted by one asymmetric relation
    are equal. *)
Lemma strongly_sorted_perm_unique {A} (R : A -> A -> Prop)
    (R_asym : forall a b, R a b -> ~ R b a) (l1 l2 : list A) :
  StronglySorted R l1 -> StronglySorted R l2 -> Permutation l1 l2 -> l1 = l2.
Proof.
  revert l2; induction l1 as [|a l1 IH]; intros l2 H1 H2 Hp.
  - symmetry; apply Permutation_nil, Hp.
  - destruct l2 as [|b l2]; [apply Permutation_sym, Permutation_nil in Hp; discriminate|].
    inversion H1 as [|? ? H1' F1]; inversion H2 as [|? ? H2' F2]; subst.
    assert (Hab : a = b).
    { destruct (Permutation_in a Hp (or_introl eq_refl)) as [<-|Ha]; [reflexivity|].
      assert (Hb : In b (a :: l1)) by (apply (Permutation_in _ (Permutation_sym Hp)); left; auto).
      destruct Hb as [<-|Hb]; [reflexivity|].
      rewrite Forall_forall in F1, F2.
      exfalso; exact (R_asym _ _ (F1 b Hb) (F2 a Ha)). }
    subst b. f_equal. apply IH; auto. eapply Permutation_cons_inv; eauto.
Qed.

(** C7: the Cleaned Dataset is sorted by [sale_date], rows of one date in
    file order; and it is the only arrangement of the deduplicated rows so
    sorted, so cleaning the same raw input always yields the same
    dataset. *)
Theorem cleaning_sorted_stable_deterministic (raws : list raw_record) :
  StronglySorted date_then_file_order (cleaned raws)
  /\ (forall l, Permutation l (map derive (dedup (kept_rows raws))) ->
        StronglySorted date_then_file_order l -> l = cleaned raws).
Proof.
  assert (Hs : StronglySorted date_then_file_order (cleaned raws)).
  { unfold cleaned, clean; simpl. apply sort_by_date_stable, derive_file_order.
    unfold dedup; apply dedup_go_sorted, kept_rows_file_order. }
  split; auto. intros l Hp Hl.
  apply (strongly_sorted_perm_unique date_then_file_order); auto.
  - unfold date_then_file_order; intros a b; lia.
  - eapply perm_trans; [exact Hp|]. unfold cleaned, clean; simpl.
    apply Permutation_sym, sort_by_perm.
Qed.

(** ** The effects of [main.py] *)

Lemma bind_ok {A B} (m : M A) (k : A -> M B) s a s' :
  m s = (Ok a, s') -> bind m k s = k a s'.
Proof. unfold bind; intros ->; reflexivity. Qed.

Lemma bind_err {A B} (m : M A) (k : A -> M B) s e s' :
  m s = (Err e, s') -> bind m k s = (Err e, s').
Proof. unfold bind; intros ->; reflexivity. Qed.

Lemma bind_inv_ok {A} (m : M A) (k : A -> M unit) s :
  fst (bind m k s) = Ok tt ->
  exists a s', m s = (Ok a, s') /\ bind m k s = k a s'.
Proof.
  unfold bind. destruct (m s) as [[a|e] s'] eqn:Em; simpl; intros H; eauto; discriminate.
Qed.

Lemma try_catch_ok {A} (m : M A) h s a s' :
  m s = (Ok a, s') -> try_catch m h s = (Ok a, s').
Proof. intros H. unfold try_catch. rewrite H. reflexivity. Qed.

Lemma try_catch_err {A} (m : M A) h s e s' :
  m s = (Err e, s') -> try_catch m h s = h e s'.
Proof. intros H. unfold try_catch. rewrite H. reflexivity. Qed.

Lemma print_step (msg : string) s :
  print msg s = (Ok tt, {| events := events s ++ [EvPrint msg]; book := book s |}).
Proof. reflexivity. Qed.

(** C1: when [clean_data] leaves no rows ([None] or an empty frame),
    [run] prints "Нет данных после очистки" and returns normally: it raises
    nothing, and calls no summary, analysis, visualization or export. *)
Theorem run_returns_quietly_on_empty_data (E : env) (ts now : string) (c : ascii)
    (p : string) (prompt : option string) (raw : frame) (cleaned_result : result (option frame))
    (report : dict frame) (s : st) :
  (cleaned_result = Ok None \/ exists d, cleaned_result = Ok (Some d) /\ f_empty d = true) ->
  run E ts now (Some (String c p)) prompt (Some raw) cleaned_result report s
  = (Ok tt, {| events := events s ++
                 [EvPrint banner; EvPrint "СИСТЕМА АНАЛИЗА ПРОДАЖ"; EvPrint banner;
                  EvPrint "1. ЗАГРУЗКА ДАННЫХ"; EvPrint rule; EvCall "load_csv";
                  EvPrint "2. ОЧИСТКА ДАННЫХ"; EvPrint rule; EvCall "clean_data";
                  EvPrint "Нет данных после очистки"];
               book := book s |}).
Proof.
  intros [->|[d [-> Hd]]];
    unfold run, print, emit, bind, lift, ret; simpl; try rewrite Hd; simpl;
    repeat rewrite <- app_assoc; reflexivity.
Qed.

(** C9: with no [Profit] column (and a [Sales_Amount] column that sums),
    the total profit is 0: in the Summary Reporter, in the summary text
    file of the CSV export and in the Excel summary sheet, where it is
    printed as "$0.00". *)
Theorem profit_absent_reported_zero (d : frame) (now : string) (rev : Q) (s : st) :
  has_column d "Profit" = false ->
  col_sum d "Sales_Amount" = Ok rev ->
  total_profit_of d = Ok 0%Q
  /\ get_summary d = Ok {| row_count := List.length (f_index d);
                           summary_revenue := rev; summary_profit := 0%Q |}
  /\ (exists ls, summary_lines (Some d) now = Ok ls /\ In "Общая прибыль: $0.00"%string ls)
  /\ (exists rows, totals_rows (Some d) s = (Ok rows, s)
                   /\ In [CStr "Общая прибыль"; CStr ""; CStr "$0.00"] rows).
Proof.
  intros Hp Hs.
  assert (Hf : fmt_money 0 = "$0.00"%string) by reflexivity.
  assert (Ht : total_profit_of d = Ok 0%Q) by (unfold total_profit_of; rewrite Hp; reflexivity).
  repeat split; auto.
  - unfold get_summary; rewrite Hs, Hp; reflexivity.
  - eexists; split.
    + unfold summary_lines; rewrite Hs, Ht; reflexivity.
    + rewrite Hf; simpl; auto.
  - eexists; split.
    + unfold totals_rows, bind, lift, ret; rewrite Hs, Ht; reflexivity.
    + rewrite Hf; simpl; auto.
Qed.

Lemma write_sheet_ok E n fr s :
  sheet_fail E n = None ->
  write_sheet E n fr s = (Ok tt, {| events := events s; book := book s ++ [(n, fr)] |}).
Proof. intros H; unfold write_sheet; rewrite H; reflexivity. Qed.

Lemma sheets_loop_ok E (analyses : dict frame) s :
  (forall n, sheet_fail E n = None) ->
  mapM_ (fun '(name, df) => if f_empty df then ret tt else write_sheet E (sheet_short name) df)
    analyses s
  = (Ok tt, {| events := events s;
               book := book s ++ flat_map (fun '(n, df) =>
                         if f_empty df then [] else [(sheet_short n, df)]) analyses |}).
Proof.
  intros Hn. revert s; induction analyses as [|[n df] analyses IH]; intros s; simpl.
  - rewrite app_nil_r; destruct s; reflexivity.
  - destruct (f_empty df); simpl.
    + unfold bind, ret; rewrite IH; reflexivity.
    + rewrite (bind_ok _ _ _ _ _ (write_sheet_ok E _ df s (Hn _))), IH; simpl.
      rewrite <- app_assoc; reflexivity.
Qed.

Lemma index0_err fr e : index0 fr = Err e -> e = IndexError.
Proof. unfold index0; destruct (f_index fr); intros H; inversion H; auto. Qed.

Lemma iloc0_col_err fr c e : iloc0_col fr c = Err e -> e = IndexError \/ e = KeyError.
Proof.
  unfold iloc0_col; destruct (f_rows fr); [intros H; inversion H; auto|].
  destruct (position c (f_columns fr)); intros H; inversion H; auto.
Qed.

Lemma fmt_cell_err c e : fmt_cell c = Err e -> e = ValueError.
Proof. destruct c; simpl; intros H; inversion H; auto. Qed.

Lemma top_entry_state analyses k l s :
  exists r, top_entry analyses k l s = (r, s) /\ (forall e, r = Err e -> e <> ImportError).
Proof.
  unfold top_entry, bind, lift, ret.
  destruct (dict_get k analyses) as [df|]; [|eexists; split; [reflexivity | discriminate]].
  destruct (index0 df) as [i|e] eqn:E1.
  - destruct (iloc0_col df col_revenue) as [c|e] eqn:E2.
    + destruct (fmt_cell c) as [x|e] eqn:E3.
      * eexists; split; [reflexivity | discriminate].
      * eexists; split; [reflexivity|]. intros e' He; inversion He; subst.
        apply fmt_cell_err in E3; subst; discriminate.
    + eexists; split; [reflexivity|]. intros e' He; inversion He; subst.
      apply iloc0_col_err in E2 as [->| ->]; discriminate.
  - eexists; split; [reflexivity|]. intros e' He; inversion He; subst.
    apply index0_err in E1; subst; discriminate.
Qed.

Lemma top_entry_no_rows analyses k l df s :
  dict_get k analyses = Some df -> f_index df = [] ->
  top_entry analyses k l s = (Err IndexError, s).
Proof.
  intros Hk Hi. unfold top_entry, bind, lift. rewrite Hk. unfold index0; rewrite Hi; reflexivity.
Qed.

Lemma excel_body_fails E data analyses s key df :
  (forall n, sheet_fail E n = None) ->
  In key [key_categories; key_regions; key_reps] ->
  dict_get key analyses = Some df -> f_index df = [] ->
  exists e, excel_body E data analyses s
            = (Err e, {| events := events s;
                         book := book s ++ data_and_analysis_sheets data analyses |})
         /\ e <> ImportError /\ (key = key_categories -> e = IndexError).
Proof.
  intros Hn Hkey Hget Hi.
  set (s1 := {| events := events s;
                book := book s ++ match data with Some d => [("Очищенные_данные"%string, d)]
                                              | None => [] end |}).
  assert (H1 : (match data with
                | Some d => write_sheet E "Очищенные_данные" d
                | None => ret tt
                end) s = (Ok tt, s1)).
  { subst s1; destruct data as [d|]; [apply write_sheet_ok, Hn | rewrite app_nil_r; destruct s; reflexivity]. }
  set (s2 := {| events := events s;
                book := book s ++ data_and_analysis_sheets data analyses |}).
  assert (H2 : mapM_ (fun '(name, df) => if f_empty df then ret tt
                                         else write_sheet E (sheet_short name) df) analyses s1
               = (Ok tt, s2)).
  { rewrite sheets_loop_ok by exact Hn. subst s1 s2; simpl.
    unfold data_and_analysis_sheets; rewrite app_assoc; reflexivity. }
  unfold excel_body. rewrite (bind_ok _ _ _ _ _ H1), (bind_ok _ _ _ _ _ H2).
  destruct (top_entry_state analyses key_categories "Лучшая категория" s2) as [[a1|e1] [T1 N1]].
  2: { rewrite (bind_err _ _ _ _ _ T1). exists e1; repeat split; auto.
       intros ->. rewrite (top_entry_no_rows _ _ _ df s2 Hget Hi) in T1. congruence. }
  rewrite (bind_ok _ _ _ _ _ T1).
  destruct (top_entry_state analyses key_regions "Лучший регион" s2) as [[a2|e2] [T2 N2]].
  2: { rewrite (bind_err _ _ _ _ _ T2). exists e2; repeat split; auto.
       intros ->. rewrite (top_entry_no_rows _ _ _ df s2 Hget Hi) in T1. congruence. }
  rewrite (bind_ok _ _ _ _ _ T2).
  destruct (top_entry_state analyses key_reps "Лучший продавец" s2) as [[a3|e3] [T3 N3]].
  2: { rewrite (bind_err _ _ _ _ _ T3). exists e3; repeat split; auto.
       intros ->. rewrite (top_entry_no_rows _ _ _ df s2 Hget Hi) in T1. congruence. }
  exfalso.
  destruct Hkey as [<-|[<-|[<-|[]]]].
  - rewrite (top_entry_no_rows _ _ _ df s2 Hget Hi) in T1; congruence.
  - rewrite (top_entry_no_rows _ _ _ df s2 Hget Hi) in T2; congruence.
  - rewrite (top_entry_no_rows _ _ _ df s2 Hget Hi) in T3; congruence.
Qed.

Lemma excel_attempt_fails E data ts analyses s key df :
  openpyxl_available E = true -> (forall n, sheet_fail E n = None) -> save_fail E = None ->
  In key [key_categories; key_regions; key_reps] ->
  dict_get key analyses = Some df -> f_index df = [] ->
  exists e, excel_attempt E data ts analyses s
            = (Err e, {| events := events s ++ [EvXlsx (excel_file ts)
                                                 (data_and_analysis_sheets data analyses)];
                         book := data_and_analysis_sheets data analyses |})
         /\ e <> ImportError /\ (key = key_categories -> e = IndexError).
Proof.
  intros Ho Hn Hs Hkey Hget Hi.
  destruct (excel_body_fails E data analyses {| events := events s; book := [] |} key df
              Hn Hkey Hget Hi) as [e [Hb [Hne Hcat]]].
  exists e; split; auto.
  assert (Hc : capture (excel_body E data analyses) {| events := events s; book := [] |}
               = (Ok (Err e), {| events := events s;
                                 book := [] ++ data_and_analysis_sheets data analyses |}))
    by (unfold capture; rewrite Hb; reflexivity).
  unfold excel_attempt; rewrite Ho, Hs; cbn [negb].
  rewrite (bind_ok _ _ s tt {| events := events s; book := [] |} eq_refl), (bind_ok _ _ _ _ _ Hc).
  reflexivity.
Qed.

(** C10: if the report maps one of the three summary keys to a table with
    no rows (with [openpyxl] present and every sheet write and the save
    succeeding), building the Excel summary raises ([IndexError] from
    [index[0]] for "Анализ_по_категориям"); the [ExcelWriter] context still
    saves an xlsx file holding the cleaned data and the non-empty analyses
    but no summary sheet, no success message is printed, and the generic
    handler then runs [export_to_csv]. *)
Theorem empty_summary_table_falls_back_to_csv (E : env) (data : option frame)
    (ts now : string) (analyses : dict frame) (s : st) (key : string) (df : frame) :
  openpyxl_available E = true -> (forall n, sheet_fail E n = None) -> save_fail E = None ->
  In key [key_categories; key_regions; key_reps] ->
  dict_get key analyses = Some df -> f_index df = [] ->
  exists e s1,
    excel_attempt E data ts analyses s = (Err e, s1)
    /\ (key = key_categories -> e = IndexError)
    /\ events s1 = events s ++ [EvXlsx (excel_file ts) (data_and_analysis_sheets data analyses)]
    /\ export_results E data ts now analyses s
       = (print ("Не удалось создать Excel файл: " ++ exn_msg e) ;;;
          print "Сохраняю в CSV..." ;;;
          export_to_csv E data ts now analyses) s1.
Proof.
  intros Ho Hn Hs Hkey Hget Hi.
  destruct (excel_attempt_fails E data ts analyses s key df Ho Hn Hs Hkey Hget Hi)
    as [e [Hx [Hne Hcat]]].
  eexists e, _; split; [exact Hx|]. repeat split; auto.
  unfold export_results, try_catch. rewrite Hx.
  destruct e; try (exfalso; apply Hne; reflexivity); reflexivity.
Qed.

Lemma csv_step_eq E ts n df :
  csv_step E ts (n, df) =
  if f_empty df then ret tt
  else write_csv E (n ++ "_" ++ ts ++ ".csv") df ;;; print (n ++ ": " ++ n ++ "_" ++ ts ++ ".csv").
Proof. reflexivity. Qed.

Lemma csv_loop_complete E ts (analyses : dict frame) s :
  fst (mapM_ (csv_step E ts) analyses s) = Ok tt ->
  (forall n df, In (n, df) analyses -> f_empty df = false ->
     In (EvCsv (n ++ "_" ++ ts ++ ".csv") df) (events (snd (mapM_ (csv_step E ts) analyses s))))
  /\ exists l, events (snd (mapM_ (csv_step E ts) analyses s)) = events s ++ l.
Proof.
  revert s; induction analyses as [|[n df] analyses IH]; intros s H.
  - split; [simpl; tauto | exists []; rewrite app_nil_r; reflexivity].
  - change (mapM_ (csv_step E ts) ((n, df) :: analyses))
      with (csv_step E ts (n, df) ;;; mapM_ (csv_step E ts) analyses) in H |- *.
    rewrite csv_step_eq in H |- *.
    destruct (f_empty df) eqn:Hdf.
    + rewrite (bind_ok (ret tt) _ s tt s eq_refl) in H |- *.
      destruct (IH s H) as [Hin Hl]. split; auto.
      intros n' df' [Heq|Hin']; [inversion Heq; subst; congruence | auto].
    + unfold write_csv in H |- *.
      destruct (file_fail E (n ++ "_" ++ ts ++ ".csv")%string) as [e|] eqn:Hf;
        [unfold bind in H; simpl in H; discriminate|].
      set (s1 := {| events := (events s ++ [EvCsv (n ++ "_" ++ ts ++ ".csv") df])
                              ++ [EvPrint (n ++ ": " ++ n ++ "_" ++ ts ++ ".csv")];
                    book := book s |}).
      assert (Hs1 : (emit (EvCsv (n ++ "_" ++ ts ++ ".csv") df) ;;;
                     print (n ++ ": " ++ n ++ "_" ++ ts ++ ".csv")%string) s = (Ok tt, s1))
        by reflexivity.
      rewrite (bind_ok _ _ _ _ _ Hs1) in H |- *.
      destruct (IH s1 H) as [Hin [l Hl]]. split.
      * intros n' df' [Heq|Hin'] Hne; [|auto].
        inversion Heq; subst. rewrite Hl. apply in_or_app; left.
        subst s1; simpl. apply in_or_app; left. apply in_or_app; right; left; reflexivity.
      * exists ([EvCsv (n ++ "_" ++ ts ++ ".csv") df;
                 EvPrint (n ++ ": " ++ n ++ "_" ++ ts ++ ".csv")] ++ l).
        rewrite Hl. subst s1; simpl. rewrite <- !app_assoc. reflexivity.
Qed.

Lemma export_to_csv_complete E data ts now analyses s :
  fst (export_to_csv E data ts now analyses s) = Ok tt ->
  csv_export_complete data ts analyses (events (snd (export_to_csv E data ts now analyses s))).
Proof.
  intros H. unfold export_to_csv in H |- *.
  destruct (bind_inv_ok _ _ _ H) as [u [sa [HA HAe]]]. rewrite HAe in H |- *.
  cbv beta in H |- *.
  destruct (bind_inv_ok _ _ _ H) as [u' [sb [HB HBe]]]. rewrite HBe in H |- *.
  cbv beta zeta in H |- *.
  destruct u, u'.
  destruct (csv_loop_complete E ts analyses sa) as [Hin [l Hl]]; [rewrite HB; reflexivity|].
  rewrite HB in Hin, Hl; simpl in Hin, Hl.
  assert (Hd : forall d, data = Some d ->
            In (EvCsv ("cleaned_data_" ++ ts ++ ".csv") d) (events sb)).
  { intros d ->. rewrite Hl. apply in_or_app; left.
    unfold write_csv in HA.
    destruct (file_fail E ("cleaned_data_" ++ ts ++ ".csv")%string);
      [unfold bind, raise in HA; discriminate|].
    unfold bind, emit, print in HA; simpl in HA. inversion HA; subst; simpl.
    apply in_or_app; left. apply in_or_app; right; left; reflexivity. }
  destruct (file_fail E ("summary_" ++ ts ++ ".txt")%string);
    [unfold raise in H; discriminate|].
  destruct (summary_lines data now) as [ls|e] eqn:Hsl;
    [|unfold bind, emit, raise in H; discriminate].
  unfold bind, emit, print; simpl.
  split; [|split].
  - intros d Hd'. apply in_or_app; left. apply in_or_app; left. auto.
  - intros n df Hnd Hne. apply in_or_app; left. apply in_or_app; left. auto.
  - exists (summary_header ++ ls). apply in_or_app; left. apply in_or_app; right; left; reflexivity.
Qed.

Lemma fallback_complete E data ts now analyses m1 m2 s :
  fst ((print m1 ;;; print m2 ;;; export_to_csv E data ts now analyses) s) = Ok tt ->
  csv_export_complete data ts analyses
    (events (snd ((print m1 ;;; print m2 ;;; export_to_csv E data ts now analyses) s))).
Proof.
  rewrite (bind_ok _ _ _ _ _ (print_step m1 s)), (bind_ok _ _ _ _ _ (print_step m2 _)).
  apply export_to_csv_complete.
Qed.

(** C8: when the Excel attempt fails (for lack of [openpyxl] or with any
    other exception) and [export_results] returns normally, the fallback
    [export_to_csv] has run to its end: the cleaned data (when present),
    every non-empty analysis table and the text summary have been written. *)
Theorem excel_failure_falls_back_to_csv E data ts now (analyses : dict frame) s e :
  fst (excel_attempt E data ts analyses s) = Err e ->
  fst (export_results E data ts now analyses s) = Ok tt ->
  csv_export_complete data ts analyses (events (snd (export_results E data ts now analyses s))).
Proof.
  intros Hx Hr. unfold export_results, try_catch in Hr |- *.
  destruct (excel_attempt E data ts analyses s) as [r1 s1] eqn:Ex.
  simpl in Hx; subst r1. cbv beta iota in Hr |- *.
  destruct e; unfold raise in Hr |- *; cbv beta iota in Hr |- *;
    try (apply fallback_complete; exact Hr).
  rewrite (bind_ok _ _ _ _ _ (print_step _ s1)) in Hr |- *.
  set (s1' := {| events := events s1 ++ _; book := book s1 |}) in Hr |- *.
  pose proof (export_to_csv_complete E data ts now analyses s1') as Hc.
  destruct (export_to_csv E data ts now analyses s1') as [[[]|e2] s2] eqn:Ec.
  - exact (Hc eq_refl).
  - apply fallback_complete; exact Hr.
Qed.

(* ================================================================== *)
(** * Concrete runs *)

(** The first cleaned row of the spec's scenario satisfies the row
    invariants. *)
Lemma cleaned_rows_invariants_witness :
  exists r, In r (cleaned raws_scenario)
    /\ (0 < quantity r /\ (0 <= discount_pct r)%Q /\ (discount_pct r < 100)%Q
        /\ sales_amount r = recompute_sales_amount (unit_price r) (quantity r) (discount_pct r)).
Proof.
  assert (H : exists r rest, cleaned raws_scenario = r :: rest)
    by (do 2 eexists; vm_compute; reflexivity).
  destruct H as [r [rest Hr]].
  assert (Hin : In r (cleaned raws_scenario)) by (rewrite Hr; left; reflexivity).
  exists r. split; [exact Hin | exact (cleaned_rows_invariants raws_scenario r Hin)].
Defined.

(** A run on "sales.csv" where [clean_data] returns [None]. *)
Lemma run_returns_quietly_on_empty_data_witness :
  (Ok (@None frame) = Ok None \/ exists d, Ok (@None frame) = Ok (Some d) /\ f_empty d = true)
  /\ run env_ok "T" "N" (Some "sales.csv"%string) None (Some frame_no_profit) (Ok None) [] st0
     = (Ok tt, {| events :=
                    [EvPrint banner; EvPrint "СИСТЕМА АНАЛИЗА ПРОДАЖ"; EvPrint banner;
                     EvPrint "1. ЗАГРУЗКА ДАННЫХ"; EvPrint rule; EvCall "load_csv";
                     EvPrint "2. ОЧИСТКА ДАННЫХ"; EvPrint rule; EvCall "clean_data";
                     EvPrint "Нет данных после очистки"];
                  book := [] |}).
Proof.
  split; [left; reflexivity|].
  exact (run_returns_quietly_on_empty_data env_ok "T" "N" "s"%char "ales.csv"%string None
           frame_no_profit (Ok None) [] st0 (or_introl eq_refl)).
Defined.

(** Against C1: [clean_data] returns a frame with no rows, and [run]
    returns normally instead of raising. *)
Lemma run_returns_normally_on_empty_clean :
  fst (run env_ok "T" "N" (Some "sales.csv"%string) None (Some frame_no_profit)
         (Ok (Some frame_no_rows)) [] st0) = Ok tt.
Proof. vm_compute. reflexivity. Qed.

(** Without [openpyxl], [export_results] on the two-row frame falls back to
    the CSV files. *)
Lemma excel_failure_falls_back_to_csv_witness :
  fst (excel_attempt env_no_openpyxl (Some frame_no_profit) "T" report_empty_category st0)
    = Err ImportError
  /\ fst (export_results env_no_openpyxl (Some frame_no_profit) "T" "N" report_empty_category st0)
    = Ok tt
  /\ csv_export_complete (Some frame_no_profit) "T" report_empty_category
       (events (snd (export_results env_no_openpyxl (Some frame_no_profit) "T" "N"
                       report_empty_category st0))).
Proof.
  assert (H1 : fst (excel_attempt env_no_openpyxl (Some frame_no_profit) "T"
                      report_empty_category st0) = Err ImportError)
    by (vm_compute; reflexivity).
  assert (H2 : fst (export_results env_no_openpyxl (Some frame_no_profit) "T" "N"
                      report_empty_category st0) = Ok tt)
    by (vm_compute; reflexivity).
  split; [exact H1|]. split; [exact H2|].
  exact (excel_failure_falls_back_to_csv env_no_openpyxl (Some frame_no_profit) "T" "N"
           report_empty_category st0 ImportError H1 H2).
Defined.

(** The two-row frame without [Profit], of revenue 245. *)
Lemma profit_absent_reported_zero_witness :
  has_column frame_no_profit "Profit" = false
  /\ col_sum frame_no_profit "Sales_Amount" = Ok 245%Q
  /\ (total_profit_of frame_no_profit = Ok 0%Q
      /\ get_summary frame_no_profit = Ok {| row_count := 2%nat;
                                             summary_revenue := 245; summary_profit := 0%Q |}
      /\ (exists ls, summary_lines (Some frame_no_profit) "N" = Ok ls
                     /\ In "Общая прибыль: $0.00"%string ls)
      /\ (exists rows, totals_rows (Some frame_no_profit) st0 = (Ok rows, st0)
                       /\ In [CStr "Общая прибыль"; CStr ""; CStr "$0.00"] rows)).
Proof.
  assert (Hp : has_column frame_no_profit "Profit" = false) by reflexivity.
  assert (Hs : col_sum frame_no_profit "Sales_Amount" = Ok 245%Q) by (vm_compute; reflexivity).
  split; [exact Hp|]. split; [exact Hs|].
  exact (profit_absent_reported_zero frame_no_profit "N" 245 st0 Hp Hs).
Defined.

(** The report whose category table has no rows. *)
Lemma empty_summary_table_falls_back_to_csv_witness :
  exists e s1,
    excel_attempt env_ok (Some frame_no_profit) "T" report_empty_category st0 = (Err e, s1)
    /\ (key_categories = key_categories -> e = IndexError)
    /\ events s1 = events st0 ++ [EvXlsx (excel_file "T")
                                    (data_and_analysis_sheets (Some frame_no_profit)
                                       report_empty_category)]
    /\ export_results env_ok (Some frame_no_profit) "T" "N" report_empty_category st0
       = (print ("Не удалось создать Excel файл: " ++ exn_msg e) ;;;
          print "Сохраняю в CSV..." ;;;
          export_to_csv env_ok (Some frame_no_profit) "T" "N" report_empty_category) s1.
Proof.
  exact (empty_summary_table_falls_back_to_csv env_ok (Some frame_no_profit) "T" "N"
           report_empty_category st0 key_categories frame_no_rows
           eq_refl (fun _ => eq_refl) eq_refl (or_introl eq_refl) eq_refl eq_refl).
Defined.

(** Against C10: the category table has no rows, the export falls back to
    CSV, and yet the xlsx file was saved, with the cleaned data and the
    region analysis but no summary sheet. *)
Lemma excel_file_still_saved_on_empty_category :
  fst (excel_attempt env_ok (Some frame_no_profit) "T" report_empty_category st0) = Err IndexError
  /\ In (EvXlsx "sales_analysis_T.xlsx"
           [("Очищенные_данные"%string, frame_no_profit); (sheet_short key_regions, frame_regions)])
        (events (snd (export_results env_ok (Some frame_no_profit) "T" "N"
                        report_empty_category st0)))
  /\ In (EvTxt "summary_T.txt"
           (summary_header ++ ["Общая выручка: $245.00"%string; "Общая прибыль: $0.00"%string;
                               "Всего транзакций: 2"%string; "Дата анализа: N"%string;
                               EmptyString]))
        (events (snd (export_results env_ok (Some frame_no_profit) "T" "N"
                        report_empty_category st0))).
Proof. vm_compute. split; [reflexivity|]. split; repeat (try (left; reflexivity); right). Qed.

(* ================================================================== *)
(** * Further properties of [main.py] *)
(** ** [export_to_csv] *)

Lemma csv_loop_no_fail E ts (analyses : dict frame) s :
  (forall f, file_fail E f = None) ->
  mapM_ (csv_step E ts) analyses s
  = (Ok tt, {| events := events s ++
                 flat_map (fun '(n, df) =>
                   if f_empty df then []
                   else [EvCsv (n ++ "_" ++ ts ++ ".csv") df;
                         EvPrint (n ++ ": " ++ n ++ "_" ++ ts ++ ".csv")]) analyses;
               book := book s |}).
Proof.
  intros Hf. revert s; induction analyses as [|[n df] analyses IH]; intros s.
  - simpl. rewrite app_nil_r. destruct s; reflexivity.
  - change (mapM_ (csv_step E ts) ((n, df) :: analyses))
      with (csv_step E ts (n, df) ;;; mapM_ (csv_step E ts) analyses).
    rewrite csv_step_eq. cbn [flat_map]. destruct (f_empty df).
    + rewrite (bind_ok (ret tt) _ s tt s eq_refl), IH. reflexivity.
    + unfold write_csv; rewrite Hf. cbn [bind emit print]. rewrite IH; simpl.
      rewrite <- !app_assoc. reflexivity.
Qed.

Lemma export_to_csv_no_fail E data ts now (analyses : dict frame) s :
  (forall f, file_fail E f = None) ->
  export_to_csv E data ts now analyses s
  = (match summary_lines data now with Ok _ => Ok tt | Err e => Err e end,
     {| events := events s
          ++ match data with
             | Some d => [EvCsv ("cleaned_data_" ++ ts ++ ".csv") d;
                          EvPrint ("Очищенные данные: cleaned_data_" ++ ts ++ ".csv")]
             | None => []
             end
          ++ flat_map (fun '(n, df) =>
               if f_empty df then []
               else [EvCsv (n ++ "_" ++ ts ++ ".csv") df;
                     EvPrint (n ++ ": " ++ n ++ "_" ++ ts ++ ".csv")]) analyses
          ++ match summary_lines data now with
             | Ok ls => [EvTxt ("summary_" ++ ts ++ ".txt") (summary_header ++ ls);
                         EvPrint ("Сводный отчет: summary_" ++ ts ++ ".txt")]
             | Err _ => [EvTxt ("summary_" ++ ts ++ ".txt") summary_header]
             end;
        book := book s |}).
Proof.
  intros Hf. unfold export_to_csv.
  set (s1 := {| events := events s
                  ++ match data with
                     | Some d => [EvCsv ("cleaned_data_" ++ ts ++ ".csv") d;
                                  EvPrint ("Очищенные данные: cleaned_data_" ++ ts ++ ".csv")]
                     | None => []
                     end; book := book s |}).
  assert (H1 : (match data with
                | Some d => write_csv E ("cleaned_data_" ++ ts ++ ".csv") d ;;;
                            print ("Очищенные данные: " ++ "cleaned_data_" ++ ts ++ ".csv")
                | None => ret tt
                end) s = (Ok tt, s1)).
  { subst s1. destruct data as [d|].
    - unfold write_csv; rewrite Hf. unfold bind, print, emit; simpl.
      rewrite <- ?app_assoc; reflexivity.
    - rewrite app_nil_r. destruct s; reflexivity. }
  rewrite (bind_ok _ _ _ _ _ H1), (bind_ok _ _ _ _ _ (csv_loop_no_fail E ts analyses s1 Hf)).
  cbv zeta. rewrite Hf. subst s1; simpl.
  destruct (summary_lines data now) as [ls|e]; unfold bind, print, emit, raise; simpl;
    rewrite <- ?app_assoc; reflexivity.
Qed.


(** ** Actions that raise *)

Lemma fails_raise {A} e : fails (@raise A e).
Proof. intros s; exists e, s; reflexivity. Qed.

Lemma fails_bind_l {A B} (m : M A) (k : A -> M B) : fails m -> fails (bind m k).
Proof. intros H s. destruct (H s) as [e [s' He]]. unfold bind; rewrite He; eauto. Qed.

Lemma fails_bind_r {A B} (m : M A) (k : A -> M B) : (forall a, fails (k a)) -> fails (bind m k).
Proof.
  intros H s. unfold bind. destruct (m s) as [[a|e] s']; [apply H | eauto].
Qed.

Lemma fails_try_catch {A} (m : M A) h : fails m -> (forall e, fails (h e)) -> fails (try_catch m h).
Proof. intros Hm Hh s. destruct (Hm s) as [e [s' He]]. unfold try_catch; rewrite He; apply Hh. Qed.

Lemma summary_lines_err d now e0 :
  col_sum d "Sales_Amount" = Err e0 \/ total_profit_of d = Err e0 ->
  exists e, summary_lines (Some d) now = Err e.
Proof.
  unfold summary_lines. intros [H|H]; [rewrite H; eauto|].
  destruct (col_sum d "Sales_Amount"); [rewrite H|]; eauto.
Qed.

Lemma export_to_csv_fails E data ts now analyses e0 :
  summary_lines data now = Err e0 -> fails (export_to_csv E data ts now analyses).
Proof.
  intros H. unfold export_to_csv.
  apply fails_bind_r; intros _. apply fails_bind_r; intros _. cbv zeta.
  destruct (file_fail E _); [apply fails_raise|]. rewrite H.
  apply fails_bind_r; intros _; apply fails_raise.
Qed.

Lemma totals_rows_fails d e0 :
  col_sum d "Sales_Amount" = Err e0 \/ total_profit_of d = Err e0 -> fails (totals_rows (Some d)).
Proof.
  intros H. unfold totals_rows.
  destruct (col_sum d "Sales_Amount") as [v|e] eqn:Hs.
  - destruct H as [H|H]; [congruence|].
    apply fails_bind_r; intros v'. rewrite H. apply fails_bind_l, fails_raise.
  - apply fails_bind_l, fails_raise.
Qed.

Lemma excel_attempt_raises E d ts analyses e0 :
  col_sum d "Sales_Amount" = Err e0 \/ total_profit_of d = Err e0 ->
  fails (excel_attempt E (Some d) ts analyses).
Proof.
  intros H.
  assert (Hb : fails (excel_body E (Some d) analyses)).
  { unfold excel_body. do 5 (apply fails_bind_r; intros ?). apply fails_bind_l.
    exact (totals_rows_fails d e0 H). }
  unfold excel_attempt. destruct (negb (openpyxl_available E)); [apply fails_raise|].
  apply fails_bind_r; intros _. intros s.
  destruct (Hb s) as [e [s' He]].
  unfold bind at 1, capture. rewrite He.
  destruct (save_fail E) as [e'|].
  - unfold bind, raise; eauto.
  - unfold bind, get_book, emit, raise; eauto.
Qed.

Lemma export_results_fails E data ts now analyses :
  fails (excel_attempt E data ts analyses) ->
  fails (export_to_csv E data ts now analyses) ->
  fails (export_results E data ts now analyses).
Proof.
  intros Hx Hc. unfold export_results.
  apply fails_try_catch.
  - apply fails_try_catch; [exact Hx|].
    intros []; try apply fails_raise. apply fails_bind_r; intros _; exact Hc.
  - intros e. apply fails_bind_r; intros _. apply fails_bind_r; intros _. exact Hc.
Qed.

(** When the cleaned data has no [Sales_Amount] column (or one that does
    not sum, or a [Profit] column that does not sum), [export_results]
    raises, whatever the environment: the Excel summary and the text
    summary both need the totals, and the CSV fallback is the last step
    of every path. *)
Theorem export_results_raises_without_totals E d ts now (analyses : dict frame) s e0 :
  col_sum d "Sales_Amount" = Err e0 \/ total_profit_of d = Err e0 ->
  exists e s', export_results E (Some d) ts now analyses s = (Err e, s').
Proof.
  intros H. destruct (summary_lines_err d now e0 H) as [e1 He1].
  apply export_results_fails;
    [exact (excel_attempt_raises E d ts analyses e0 H) | exact (export_to_csv_fails E _ ts now analyses e1 He1)].
Qed.

(** ** Component calls *)











(** ** [run] *)

Lemma mapM_ok {A} (f : A -> M unit) l s :
  (forall x s, exists s', f x s = (Ok tt, s')) -> exists s', mapM_ f l s = (Ok tt, s').
Proof.
  intros Hf; revert s; induction l as [|y l IH]; intros s; simpl.
  - exists s; reflexivity.
  - destruct (Hf y s) as [s1 H1]. rewrite (bind_ok _ _ _ _ _ H1). apply IH.
Qed.

Lemma run_body_eq E ts now file_path prompt loaded cleaned report :
  run E ts now file_path prompt loaded cleaned report
  = run_body (fun d => export_results E (Some d) ts now report) ts now file_path prompt loaded cleaned.
Proof. reflexivity. Qed.

Lemma run_body_reaches exp ts now c p prompt raw d s :
  f_empty d = false ->
  exists s1, run_body exp ts now (Some (String c p)) prompt (Some raw) (Ok (Some d)) s
             = (exp d ;;; print banner ;;; print "АНАЛИЗ ЗАВЕРШЕН УСПЕШНО!" ;;; print banner) s1.
Proof.
  intros Hne. unfold run_body.
  cbv [bind print emit lift ret events book]. rewrite Hne. eexists. reflexivity.
Qed.

Lemma run_reaches_export E ts now c p prompt raw d report s :
  f_empty d = false ->
  exists s1, run E ts now (Some (String c p)) prompt (Some raw) (Ok (Some d)) report s
             = (export_results E (Some d) ts now report ;;;
                print banner ;;; print "АНАЛИЗ ЗАВЕРШЕН УСПЕШНО!" ;;; print banner) s1.
Proof.
  intros Hne. rewrite run_body_eq.
  exact (run_body_reaches (fun d => export_results E (Some d) ts now report)
           ts now c p prompt raw d s Hne).
Qed.




(** A cleaned dataset without a summable [Sales_Amount] (or [Profit])
    column makes [run] raise at the export step: it never reaches
    "АНАЛИЗ ЗАВЕРШЕН УСПЕШНО!". *)
Theorem run_raises_without_totals E ts now c p prompt raw d report s e0 :
  f_empty d = false ->
  col_sum d "Sales_Amount" = Err e0 \/ total_profit_of d = Err e0 ->
  exists e s', run E ts now (Some (String c p)) prompt (Some raw) (Ok (Some d)) report s
               = (Err e, s').
Proof.
  intros Hne H. destruct (run_reaches_export E ts now c p prompt raw d report s Hne) as [s1 ->].
  destruct (summary_lines_err d now e0 H) as [e1 He1].
  apply fails_bind_l, export_results_fails;
    [exact (excel_attempt_raises E d ts report e0 H)
    | exact (export_to_csv_fails E _ ts now report e1 He1)].
Qed.



(** ** The Excel report when it succeeds *)

Lemma top_entry_ok analyses key label s :
  (forall df, dict_get key analyses = Some df ->
     exists i c t, index0 df = Ok i /\ iloc0_col df col_revenue = Ok c /\ fmt_cell c = Ok t) ->
  exists r, top_entry analyses key label s = (Ok r, s)
    /\ (forall df, dict_get key analyses = Some df ->
          exists i c t, index0 df = Ok i /\ iloc0_col df col_revenue = Ok c /\ fmt_cell c = Ok t
                        /\ r = [[CStr label; CStr i; CStr t]]).
Proof.
  intros H. unfold top_entry.
  destruct (dict_get key analyses) as [df|].
  - destruct (H df eq_refl) as (i & c & t & H1 & H2 & H3).
    unfold bind, lift, ret. rewrite H1, H2, H3.
    eexists; split; [reflexivity|]. intros df' Hdf; inversion Hdf; subst. eauto 8.
  - eexists; split; [reflexivity|]. discriminate.
Qed.

Lemma totals_rows_ok data s :
  (forall d, data = Some d -> exists v p, col_sum d "Sales_Amount" = Ok v /\ total_profit_of d = Ok p) ->
  exists r, totals_rows data s = (Ok r, s).
Proof.
  intros H. unfold totals_rows. destruct data as [d|]; [|eexists; reflexivity].
  destruct (H d eq_refl) as (v & p & Hv & Hp).
  unfold bind, lift, ret. rewrite Hv, Hp. eexists; reflexivity.
Qed.

(** With [openpyxl], every sheet write and the save succeeding, every
    summary table of the report having a first row with a formattable
    "Общая_выручка", and the totals of the data computable, [export_results]
    saves one xlsx file: the cleaned data, the non-empty analyses, then the
    "Сводка" sheet, whose "best" rows name each table's first row.  It
    prints the success line and writes no CSV or text file. *)
Theorem excel_export_success E data ts now (analyses : dict frame) s :
  openpyxl_available E = true -> (forall n, sheet_fail E n = None) -> save_fail E = None ->
  (forall key df, In key [key_categories; key_regions; key_reps] ->
     dict_get key analyses = Some df ->
     exists i c t, index0 df = Ok i /\ iloc0_col df col_revenue = Ok c /\ fmt_cell c = Ok t) ->
  (forall d, data = Some d -> exists v p, col_sum d "Sales_Amount" = Ok v /\ total_profit_of d = Ok p) ->
  exists rows,
    export_results E data ts now analyses s
    = (Ok tt, {| events := events s ++
                   [EvXlsx (excel_file ts)
                      (data_and_analysis_sheets data analyses
                       ++ [("Сводка"%string, summary_frame rows)]);
                    EvPrint ("Excel отчет сохранен: " ++ excel_file ts)];
                 book := data_and_analysis_sheets data analyses
                         ++ [("Сводка"%string, summary_frame rows)] |})
    /\ (forall key label df,
          In (key, label) [(key_categories, "Лучшая категория"%string);
                           (key_regions, "Лучший регион"%string);
                           (key_reps, "Лучший продавец"%string)] ->
          dict_get key analyses = Some df ->
          exists i c t, index0 df = Ok i /\ iloc0_col df col_revenue = Ok c /\ fmt_cell c = Ok t
                        /\ In [CStr label; CStr i; CStr t] rows).
Proof.
  intros Ho Hn Hs Hk Hd.
  set (s0 := {| events := events s; book := [] |}).
  set (s1 := {| events := events s;
                book := match data with Some d => [("Очищенные_данные"%string, d)]
                                   | None => [] end |}).
  assert (H1 : (match data with
                | Some d => write_sheet E "Очищенные_данные" d
                | None => ret tt
                end) s0 = (Ok tt, s1)).
  { subst s0 s1; destruct data as [d|]; [apply write_sheet_ok, Hn | reflexivity]. }
  set (s2 := {| events := events s; book := data_and_analysis_sheets data analyses |}).
  assert (H2 : mapM_ (fun '(name, df) => if f_empty df then ret tt
                                         else write_sheet E (sheet_short name) df) analyses s1
               = (Ok tt, s2)).
  { rewrite sheets_loop_ok by exact Hn. reflexivity. }
  destruct (top_entry_ok analyses key_categories "Лучшая категория" s2
              (fun df => Hk _ df (or_introl eq_refl))) as [r1 [T1 P1]].
  destruct (top_entry_ok analyses key_regions "Лучший регион" s2
              (fun df => Hk _ df (or_intror (or_introl eq_refl)))) as [r2 [T2 P2]].
  destruct (top_entry_ok analyses key_reps "Лучший продавец" s2
              (fun df => Hk _ df (or_intror (or_intror (or_introl eq_refl))))) as [r3 [T3 P3]].
  destruct (totals_rows_ok data s2 Hd) as [r4 T4].
  exists (r1 ++ r2 ++ r3 ++ r4). split.
  - assert (Hb : excel_body E data analyses s0
                 = (Ok tt, {| events := events s;
                              book := data_and_analysis_sheets data analyses
                                      ++ [("Сводка"%string, summary_frame (r1 ++ r2 ++ r3 ++ r4))] |})).
    { unfold excel_body. rewrite (bind_ok _ _ _ _ _ H1), (bind_ok _ _ _ _ _ H2),
        (bind_ok _ _ _ _ _ T1), (bind_ok _ _ _ _ _ T2), (bind_ok _ _ _ _ _ T3),
        (bind_ok _ _ _ _ _ T4), write_sheet_ok by apply Hn. reflexivity. }
    assert (Hc : capture (excel_body E data analyses) s0
                 = (Ok (Ok tt), {| events := events s;
                                   book := data_and_analysis_sheets data analyses
                                     ++ [("Сводка"%string, summary_frame (r1 ++ r2 ++ r3 ++ r4))] |}))
      by (unfold capture; rewrite Hb; reflexivity).
    assert (Ha : excel_attempt E data ts analyses s
                 = (Ok tt, {| events := events s ++
                                [EvXlsx (excel_file ts)
                                   (data_and_analysis_sheets data analyses
                                    ++ [("Сводка"%string, summary_frame (r1 ++ r2 ++ r3 ++ r4))]);
                                 EvPrint ("Excel отчет сохранен: " ++ excel_file ts)];
                              book := data_and_analysis_sheets data analyses
                                ++ [("Сводка"%string, summary_frame (r1 ++ r2 ++ r3 ++ r4))] |})).
    { unfold excel_attempt. rewrite Ho. cbv [negb].
      rewrite (bind_ok (set_book []) _ s tt s0 eq_refl), (bind_ok _ _ _ _ _ Hc).
      rewrite Hs. cbv [bind get_book emit print events book]. rewrite <- app_assoc. reflexivity. }
    unfold export_results.
    rewrite (try_catch_ok _ _ _ _ _ (try_catch_ok _ _ _ _ _ Ha)). reflexivity.
  - intros key label df Hkl Hget.
    destruct Hkl as [Heq|[Heq|[Heq|[]]]]; inversion Heq; subst key label.
    + destruct (P1 df Hget) as (i & c & t & E1 & E2 & E3 & ->).
      exists i, c, t; repeat split; auto. left; reflexivity.
    + destruct (P2 df Hget) as (i & c & t & E1 & E2 & E3 & ->).
      exists i, c, t; repeat split; auto. apply in_or_app; right; left; reflexivity.
    + destruct (P3 df Hget) as (i & c & t & E1 & E2 & E3 & ->).
      exists i, c, t; repeat split; auto.
      apply in_or_app; right; apply in_or_app; right; left; reflexivity.
Qed.

(** ** Without [openpyxl] *)

(** Without [openpyxl], when the data's [Sales_Amount] cannot be summed
    (a missing column gives [KeyError]), the CSV export of the [ImportError]
    handler raises after writing its files, the outer handler catches that
    error as an Excel failure and runs the CSV export a second time, which
    raises the same error out of [export_results]: every CSV file and the
    header-only summary file are written twice. *)
Theorem no_openpyxl_csv_export_runs_twice E d ts now (analyses : dict frame) s e :
  openpyxl_available E = false -> (forall f, file_fail E f = None) ->
  col_sum d "Sales_Amount" = Err e ->
  let csv := [EvCsv ("cleaned_data_" ++ ts ++ ".csv") d;
              EvPrint ("Очищенные данные: cleaned_data_" ++ ts ++ ".csv")]
             ++ flat_map (fun '(n, df) =>
                  if f_empty df then []
                  else [EvCsv (n ++ "_" ++ ts ++ ".csv") df;
                        EvPrint (n ++ ": " ++ n ++ "_" ++ ts ++ ".csv")]) analyses
             ++ [EvTxt ("summary_" ++ ts ++ ".txt") summary_header] in
  export_results E (Some d) ts now analyses s
  = (Err e, {| events := events s
                 ++ [EvPrint "Модуль openpyxl не установлен. Сохраняю в CSV..."] ++ csv
                 ++ [EvPrint ("Не удалось создать Excel файл: " ++ exn_msg e);
                     EvPrint "Сохраняю в CSV..."] ++ csv;
               book := book s |}).
Proof.
  intros Ho Hf He csv.
  assert (Hs : summary_lines (Some d) now = Err e) by (unfold summary_lines; rewrite He; reflexivity).
  assert (Hx : excel_attempt E (Some d) ts analyses s = (Err ImportError, s)).
  { unfold excel_attempt. rewrite Ho. reflexivity. }
  assert (Hin : try_catch (excel_attempt E (Some d) ts analyses)
                  (fun e => match e with
                            | ImportError =>
                                print "Модуль openpyxl не установлен. Сохраняю в CSV..." ;;;
                                export_to_csv E (Some d) ts now analyses
                            | _ => raise e
                            end) s
                = (Err e, {| events := events s
                               ++ [EvPrint "Модуль openpyxl не установлен. Сохраняю в CSV..."] ++ csv;
                             book := book s |})).
  { rewrite (try_catch_err _ _ _ _ _ Hx). cbv beta iota.
    rewrite (bind_ok _ _ _ _ _ (print_step _ _)), export_to_csv_no_fail by exact Hf.
    rewrite Hs. subst csv. cbv [events book]. rewrite <- !app_assoc. reflexivity. }
  unfold export_results. rewrite (try_catch_err _ _ _ _ _ Hin). cbv beta.
  rewrite (bind_ok _ _ _ _ _ (print_step _ _)), (bind_ok _ _ _ _ _ (print_step _ _)).
  rewrite export_to_csv_no_fail by exact Hf. rewrite Hs.
  subst csv. cbv [events book]. rewrite <- !app_assoc. reflexivity.
Qed.

(** ** Sheet names *)

Lemma utf8_take_cons n c t :
  utf8_take n (c :: t)
  = if (128 <=? nat_of_ascii c)%nat && (nat_of_ascii c <? 192)%nat then c :: utf8_take n t
    else match n with O => [] | S n' => c :: utf8_take n' t end.
Proof. reflexivity. Qed.

Lemma utf8_take_count n l : utf8_count (utf8_take n l) = Nat.min n (utf8_count l).
Proof.
  revert n; induction l as [|c t IH]; intros n; unfold utf8_count in *;
    [simpl; lia|].
  rewrite utf8_take_cons.
  destruct ((128 <=? nat_of_ascii c)%nat && (nat_of_ascii c <? 192)%nat) eqn:Hc.
  - cbn [filter]. rewrite Hc. cbn [negb]. apply IH.
  - destruct n as [|n']; cbn [filter]; rewrite Hc; cbn [negb List.length];
      [lia|]. rewrite IH. lia.
Qed.

Lemma utf8_take_prefix n l :
  exists rest, l = utf8_take n l ++ rest
    /\ forall c r, rest = c :: r ->
         ((128 <=? nat_of_ascii c)%nat && (nat_of_ascii c <? 192)%nat) = false.
Proof.
  revert n; induction l as [|c t IH]; intros n.
  - exists []; split; [reflexivity | discriminate].
  - rewrite utf8_take_cons.
    destruct ((128 <=? nat_of_ascii c)%nat && (nat_of_ascii c <? 192)%nat) eqn:Hc.
    + destruct (IH n) as [rest [E R]]. exists rest; split; [rewrite <- app_comm_cons; f_equal; exact E | exact R].
    + destruct n as [|n'].
      * exists (c :: t); split; [reflexivity|]. intros c' r H; inversion H; subst; exact Hc.
      * destruct (IH n') as [rest [E R]]. exists rest; split; [rewrite <- app_comm_cons; f_equal; exact E | exact R].
Qed.

Lemma utf8_take_short n l : (utf8_count l <= n)%nat -> utf8_take n l = l.
Proof.
  revert n; induction l as [|c t IH]; intros n H; [reflexivity|].
  rewrite utf8_take_cons. unfold utf8_count in H, IH; cbn [filter] in H.
  destruct ((128 <=? nat_of_ascii c)%nat && (nat_of_ascii c <? 192)%nat) eqn:Hc;
    try rewrite Hc in H; cbn [negb List.length] in H.
  - f_equal; apply IH; exact H.
  - destruct n as [|n']; [lia|]. f_equal; apply IH. lia.
Qed.

(** [sheet_name[:31]] keeps the first 31 characters of a UTF-8 name: the
    result has [min 31 (len name)] characters, it is a prefix of the name
    that ends on a character boundary, and a name of at most 31
    characters is kept whole. *)
Theorem sheet_short_first_31_chars (name : string) :
  utf8_count (list_ascii_of_string (sheet_short name))
    = Nat.min 31 (utf8_count (list_ascii_of_string name))
  /\ (exists rest, list_ascii_of_string name = list_ascii_of_string (sheet_short name) ++ rest
        /\ forall c r, rest = c :: r ->
             ((128 <=? nat_of_ascii c)%nat && (nat_of_ascii c <? 192)%nat) = false)
  /\ ((utf8_count (list_ascii_of_string name) <= 31)%nat -> sheet_short name = name).
Proof.
  unfold sheet_short. rewrite list_ascii_of_string_of_list_ascii.
  split; [apply utf8_take_count|]. split; [apply utf8_take_prefix|].
  intros H. rewrite utf8_take_short by exact H. apply string_of_list_ascii_of_string.
Qed.

(** ** [get_file_path] *)

Lemma input_cons prompt a rest s :
  input prompt (a :: rest) s
  = (Ok (a, rest), {| events := events s ++ [EvPrint prompt]; book := book s |}).
Proof. reflexivity. Qed.

Section FileChoiceProofs.
Variable isdigit : string -> bool.
Variable py_int : string -> result Z.
Variable strip : string -> string.
Variable path_exists : string -> bool.

Lemma manual_path_answer a rest s :
  fst (manual_path strip path_exists (a :: rest) s)
  = Ok (if String.eqb (strip a) "" then None
        else if path_exists (strip a) then Some (strip a) else None).
Proof.
  unfold manual_path.
  rewrite (bind_ok _ _ _ _ _ (input_cons _ _ _ _)). cbv beta zeta. cbn [fst].
  destruct (String.eqb (strip a) ""); cbv beta iota;
    [rewrite (bind_ok _ _ _ _ _ (print_step _ _)); reflexivity|].
  destruct (path_exists (strip a)); cbv beta iota delta [negb];
    [reflexivity | rewrite (bind_ok _ _ _ _ _ (print_step _ _)); reflexivity].
Qed.

Lemma manual_path_some answers s p :
  fst (manual_path strip path_exists answers s) = Ok (Some p) ->
  p <> ""%string /\ path_exists p = true /\ exists a, In a answers /\ p = strip a.
Proof.
  destruct answers as [|a rest]; [unfold manual_path, input, bind, raise; discriminate|].
  rewrite manual_path_answer. intros H.
  destruct (String.eqb (strip a) "") eqn:E1; [discriminate|].
  destruct (path_exists (strip a)) eqn:E2; [|discriminate].
  inversion H; subst. split; [|split; [exact E2|exists a; split; [left|]; reflexivity]].
  intros E. rewrite E in E1. discriminate.
Qed.

Lemma get_file_path_choice listing c rest s :
  filter (ends_with ".csv") listing <> [] ->
  exists s', get_file_path isdigit py_int strip path_exists listing (c :: rest) s
  = (if isdigit (strip c) then
       k <- lift (py_int (strip c)) ;;
       if (1 <=? k) && (k <=? Z.of_nat (List.length (filter (ends_with ".csv") listing))) then
         ret (Some (nth (Z.to_nat (k - 1)) (filter (ends_with ".csv") listing) ""%string))
       else manual_path strip path_exists rest
     else manual_path strip path_exists rest) s'.
Proof.
  intros Hne. unfold get_file_path. cbv zeta.
  destruct (filter (ends_with ".csv") listing) as [|f fs] eqn:Hf; [congruence|].
  rewrite (bind_ok _ _ _ _ _ (print_step _ _)).
  destruct (mapM_ok (fun '(i, file) => print ("  " ++ str_of_nat i ++ ". " ++ file)%string)
              (combine (seq 1 (List.length (f :: fs))) (f :: fs))
              {| events := events s ++ [EvPrint "Найденные CSV файлы:"]; book := book s |})
    as [s' Hm]; [intros [i file] s0; eexists; apply print_step|].
  rewrite (bind_ok _ _ _ _ _ Hm).
  assert (Hi : input "Выберите файл (номер) или введите свой путь: " (c :: rest) s'
               = (Ok (c, rest),
                  {| events := events s' ++ [EvPrint "Выберите файл (номер) или введите свой путь: "];
                     book := book s' |})) by reflexivity.
  rewrite (bind_ok _ _ _ _ _ Hi). cbv beta zeta. cbn [fst snd]. eexists; reflexivity.
Qed.

(** The path [get_file_path] returns is either one of the listed files
    ending in ".csv" or a non-empty, existing path the user typed (after
    stripping). *)
Theorem get_file_path_returns_listed_or_existing listing answers s p :
  fst (get_file_path isdigit py_int strip path_exists listing answers s) = Ok (Some p) ->
  (In p listing /\ ends_with ".csv" p = true)
  \/ (p <> ""%string /\ path_exists p = true /\ exists a, In a answers /\ p = strip a).
Proof.
  intros H.
  destruct (filter (ends_with ".csv") listing) as [|f fs] eqn:Hf.
  - right. unfold get_file_path in H; cbv zeta in H; rewrite Hf in H.
    exact (manual_path_some _ _ _ H).
  - assert (Hne : filter (ends_with ".csv") listing <> []) by congruence.
    destruct answers as [|c rest].
    + exfalso. unfold get_file_path in H; cbv zeta in H; rewrite Hf in H.
      rewrite (bind_ok _ _ _ _ _ (print_step _ _)) in H.
      destruct (mapM_ok (fun '(i, file) => print ("  " ++ str_of_nat i ++ ". " ++ file)%string)
                  (combine (seq 1 (List.length (f :: fs))) (f :: fs))
                  {| events := events s ++ [EvPrint "Найденные CSV файлы:"]; book := book s |})
        as [s' Hm]; [intros [i file] s0; eexists; apply print_step|].
      rewrite (bind_ok _ _ _ _ _ Hm) in H. discriminate.
    + destruct (get_file_path_choice listing c rest s Hne) as [s' Hs]. rewrite Hs in H.
      destruct (isdigit (strip c)).
      2: { right. destruct (manual_path_some _ _ _ H) as (A & B & a & C & D).
           repeat split; auto. exists a; split; [right|]; auto. }
      destruct (py_int (strip c)) as [k|e] eqn:Hk; [|discriminate].
      rewrite (bind_ok (lift (Ok k)) _ _ k _ eq_refl) in H.
      destruct ((1 <=? k) && (k <=? Z.of_nat (List.length (filter (ends_with ".csv") listing)))) eqn:Hr.
      2: { right. destruct (manual_path_some _ _ _ H) as (A & B & a & C & D).
           repeat split; auto. exists a; split; [right|]; auto. }
      left. inversion H; subst p. rewrite <- filter_In. apply nth_In.
      apply andb_true_iff in Hr as [H1 H2]. apply Z.leb_le in H1, H2. rewrite Hf in *.
      simpl length in *. lia.
Qed.

(** When the directory holds ".csv" files and the first answer is a
    number [k] between 1 and their count, [get_file_path] returns the
    [k]-th of them in listing order, without asking for a path. *)
Theorem get_file_path_numeric_choice listing c rest s k :
  filter (ends_with ".csv") listing <> [] ->
  isdigit (strip c) = true -> py_int (strip c) = Ok k ->
  1 <= k <= Z.of_nat (List.length (filter (ends_with ".csv") listing)) ->
  exists f, nth_error (filter (ends_with ".csv") listing) (Z.to_nat (k - 1)) = Some f
    /\ fst (get_file_path isdigit py_int strip path_exists listing (c :: rest) s) = Ok (Some f).
Proof.
  intros Hne Hd Hk Hr.
  destruct (get_file_path_choice listing c rest s Hne) as [s' ->].
  rewrite Hd, Hk, (bind_ok (lift (Ok k)) _ _ k _ eq_refl).
  assert (Hb : ((1 <=? k) && (k <=? Z.of_nat (List.length (filter (ends_with ".csv") listing)))) = true)
    by (apply andb_true_iff; split; apply Z.leb_le; lia).
  rewrite Hb. exists (nth (Z.to_nat (k - 1)) (filter (ends_with ".csv") listing) ""%string).
  split; [|reflexivity]. apply nth_error_nth'. lia.
Qed.


End FileChoiceProofs.

(* ================================================================== *)
(** * Concrete runs of the further properties *)


(** [frame_regions] has no [Sales_Amount] column. *)
Lemma export_results_raises_without_totals_witness :
  col_sum frame_regions "Sales_Amount" = Err KeyError
  /\ exists e s', export_results env_ok (Some frame_regions) "T" "N" report_empty_category st0
                  = (Err e, s').
Proof.
  assert (H : col_sum frame_regions "Sales_Amount" = Err KeyError) by (vm_compute; reflexivity).
  split; [exact H|].
  exact (export_results_raises_without_totals env_ok frame_regions "T" "N"
           report_empty_category st0 KeyError (or_introl H)).
Defined.

(** A run on "sales.csv" whose cleaned data is [frame_regions]. *)
Lemma run_raises_without_totals_witness :
  f_empty frame_regions = false
  /\ col_sum frame_regions "Sales_Amount" = Err KeyError
  /\ exists e s', run env_ok "T" "N" (Some "sales.csv"%string) None (Some frame_regions)
                    (Ok (Some frame_regions)) report_empty_category st0 = (Err e, s').
Proof.
  assert (H1 : f_empty frame_regions = false) by reflexivity.
  assert (H2 : col_sum frame_regions "Sales_Amount" = Err KeyError) by (vm_compute; reflexivity).
  split; [exact H1|]. split; [exact H2|].
  exact (run_raises_without_totals env_ok "T" "N" "s"%char "ales.csv"%string None
           frame_regions frame_regions report_empty_category st0 KeyError H1 (or_introl H2)).
Defined.


(** The two-row frame with the region table alone: the summary sheet
    names "North" as the best region. *)
Lemma excel_export_success_witness :
  exists rows,
    export_results env_ok (Some frame_no_profit) "T" "N" report_regions st0
    = (Ok tt, {| events := events st0 ++
                   [EvXlsx (excel_file "T")
                      (data_and_analysis_sheets (Some frame_no_profit) report_regions
                       ++ [("Сводка"%string, summary_frame rows)]);
                    EvPrint ("Excel отчет сохранен: " ++ excel_file "T")];
                 book := data_and_analysis_sheets (Some frame_no_profit) report_regions
                         ++ [("Сводка"%string, summary_frame rows)] |})
    /\ In [CStr "Лучший регион"; CStr "North"; CStr "$200.00"] rows.
Proof.
  assert (Hk : forall key df, In key [key_categories; key_regions; key_reps] ->
                 dict_get key report_regions = Some df ->
                 exists i c t, index0 df = Ok i /\ iloc0_col df col_revenue = Ok c
                               /\ fmt_cell c = Ok t).
  { intros key df Hin Hget.
    destruct Hin as [<-|[<-|[<-|[]]]]; vm_compute in Hget; try discriminate.
    inversion Hget; subst df.
    exists "North"%string, (CNum 200), "$200.00"%string.
    split; [|split]; vm_compute; reflexivity. }
  assert (Hd : forall d, Some frame_no_profit = Some d ->
                 exists v p, col_sum d "Sales_Amount" = Ok v /\ total_profit_of d = Ok p).
  { intros d Hd. inversion Hd; subst d. exists 245%Q, 0%Q.
    split; vm_compute; reflexivity. }
  destruct (excel_export_success env_ok (Some frame_no_profit) "T" "N" report_regions st0
              eq_refl (fun _ => eq_refl) eq_refl Hk Hd) as [rows [Heq Hin]].
  exists rows. split; [exact Heq|].
  destruct (Hin key_regions "Лучший регион"%string frame_regions
              (or_intror (or_introl eq_refl)) eq_refl) as (i & c & t & E1 & E2 & E3 & Hr).
  vm_compute in E1. inversion E1; subst i.
  vm_compute in E2. inversion E2; subst c.
  vm_compute in E3. inversion E3; subst t.
  exact Hr.
Defined.

(** Without [openpyxl], [frame_regions] (no [Sales_Amount]) makes both
    CSV exports run and write the same files. *)
Lemma no_openpyxl_csv_export_runs_twice_witness :
  col_sum frame_regions "Sales_Amount" = Err KeyError
  /\ export_results env_no_openpyxl (Some frame_regions) "T" "N" report_empty_category st0
     = (Err KeyError,
        {| events :=
             [EvPrint "Модуль openpyxl не установлен. Сохраняю в CSV...";
              EvCsv "cleaned_data_T.csv" frame_regions;
              EvPrint "Очищенные данные: cleaned_data_T.csv";
              EvCsv "Анализ_по_регионам_T.csv" frame_regions;
              EvPrint "Анализ_по_регионам: Анализ_по_регионам_T.csv";
              EvTxt "summary_T.txt" summary_header;
              EvPrint "Не удалось создать Excel файл: KeyError";
              EvPrint "Сохраняю в CSV...";
              EvCsv "cleaned_data_T.csv" frame_regions;
              EvPrint "Очищенные данные: cleaned_data_T.csv";
              EvCsv "Анализ_по_регионам_T.csv" frame_regions;
              EvPrint "Анализ_по_регионам: Анализ_по_регионам_T.csv";
              EvTxt "summary_T.txt" summary_header];
           book := [] |}).
Proof.
  assert (H : col_sum frame_regions "Sales_Amount" = Err KeyError) by (vm_compute; reflexivity).
  split; [exact H|].
  pose proof (no_openpyxl_csv_export_runs_twice env_no_openpyxl frame_regions "T" "N"
                report_empty_category st0 KeyError eq_refl (fun _ => eq_refl) H) as T.
  cbv zeta in T. rewrite T. vm_compute. reflexivity.
Defined.

(** A 20-character key is kept whole; a 38-character name is cut to 31
    characters. *)
Lemma sheet_short_first_31_chars_witness :
  (utf8_count (list_ascii_of_string key_categories) <= 31)%nat
  /\ sheet_short key_categories = key_categories
  /\ utf8_count (list_ascii_of_string (sheet_short "Анализ_продаж_по_категориям_и_регионам"))
     = 31%nat.
Proof.
  assert (H : (utf8_count (list_ascii_of_string key_categories) <= 31)%nat)
    by (vm_compute; lia).
  destruct (sheet_short_first_31_chars key_categories) as [_ [_ H3]].
  destruct (sheet_short_first_31_chars "Анализ_продаж_по_категориям_и_регионам") as [C _].
  split; [exact H|]. split; [exact (H3 H)|].
  rewrite C. vm_compute. reflexivity.
Defined.

(** Choosing file 2 of the listing. *)
Lemma get_file_path_returns_listed_or_existing_witness :
  fst (get_file_path ascii_isdigit ascii_int ascii_strip exists_example listing_example
         [" 2 "%string] st0) = Ok (Some "sales_2024.csv"%string)
  /\ ((In "sales_2024.csv"%string listing_example /\ ends_with ".csv" "sales_2024.csv" = true)
      \/ ("sales_2024.csv"%string <> ""%string /\ exists_example "sales_2024.csv" = true
          /\ exists a, In a [" 2 "%string] /\ "sales_2024.csv"%string = ascii_strip a)).
Proof.
  assert (H : fst (get_file_path ascii_isdigit ascii_int ascii_strip exists_example
                     listing_example [" 2 "%string] st0) = Ok (Some "sales_2024.csv"%string))
    by (vm_compute; reflexivity).
  split; [exact H|].
  exact (get_file_path_returns_listed_or_existing ascii_isdigit ascii_int ascii_strip
           exists_example listing_example [" 2 "%string] st0 "sales_2024.csv" H).
Defined.

(** The answer " 2 " picks the second ".csv" file of the listing. *)
Lemma get_file_path_numeric_choice_witness :
  filter (ends_with ".csv") listing_example <> []
  /\ ascii_isdigit (ascii_strip " 2 ") = true /\ ascii_int (ascii_strip " 2 ") = Ok 2
  /\ exists f, nth_error (filter (ends_with ".csv") listing_example) (Z.to_nat (2 - 1)) = Some f
       /\ fst (get_file_path ascii_isdigit ascii_int ascii_strip exists_example listing_example
                [" 2 "%string] st0) = Ok (Some f).
Proof.
  assert (Hne : filter (ends_with ".csv") listing_example <> []) by (vm_compute; discriminate).
  assert (Hd : ascii_isdigit (ascii_strip " 2 ") = true) by (vm_compute; reflexivity).
  assert (Hk : ascii_int (ascii_strip " 2 ") = Ok 2) by (vm_compute; reflexivity).
  assert (Hl : Z.of_nat (List.length (filter (ends_with ".csv") listing_example)) = 2)
    by (vm_compute; reflexivity).
  assert (Hr : 1 <= 2 <= Z.of_nat (List.length (filter (ends_with ".csv") listing_example)))
    by (rewrite Hl; lia).
  split; [exact Hne|]. split; [exact Hd|]. split; [exact Hk|].
  exact (get_file_path_numeric_choice ascii_isdigit ascii_int ascii_strip exists_example
           listing_example " 2 " [] st0 2 Hne Hd Hk Hr).
Defined.

